(** * Todo backend: connection manager, startup configuration, schemas

    A shallow embedding of [src/api/database.py] and [src/api/schemas.py]
    of the todo backend, with the statements proved about them.

    - [Py]        the fragment of Python the two modules rely on: exception
                  classes, and a state-and-exception monad with
                  [try]/[except]/[finally].
    - [Database]  [database.py]: the import-time configuration checks and the
                  [get_db_connection] context manager.
    - [Schemas]   [schemas.py]: the pydantic models and their validation.
    - [Routes]    the repository operations of [routes.py]. *)

From stdpp Require Import base option list strings gmap.
From Stdlib Require Import ZArith Lia Ascii String.

Local Open Scope string_scope.

(* ===================================================================== *)
(** ** Python fragments *)
(* ===================================================================== *)

Module Py.

(** Exception classes that occur in the modelled code, with the part of the
    class hierarchy that [except sqlite3.Error] inspects. *)
Inductive exc_class : Type :=
  | ValueError
  | FileNotFoundError
  | KeyError
  | RuntimeError
  | HTTPException
  | KeyboardInterrupt
  | sqlite3_Error
  | sqlite3_InterfaceError
  | sqlite3_DatabaseError
  | sqlite3_OperationalError
  | sqlite3_IntegrityError
  | sqlite3_ProgrammingError.

(** An exception object: its class and its message. *)
Record exn : Type := Exn { exn_class : exc_class; exn_msg : string }.

(** [issubclass(c, sqlite3.Error)]. *)
Definition issubclass_sqlite3_Error (c : exc_class) : bool :=
  match c with
  | sqlite3_Error | sqlite3_InterfaceError | sqlite3_DatabaseError
  | sqlite3_OperationalError | sqlite3_IntegrityError
  | sqlite3_ProgrammingError => true
  | _ => false
  end.

(** [isinstance(e, sqlite3.Error)]. *)
Definition isinstance_sqlite3_Error (e : exn) : bool :=
  issubclass_sqlite3_Error (exn_class e).

(** How a block of statements ends. *)
Inductive outcome (A : Type) : Type :=
  | Return (a : A)
  | Raise (e : exn).
Arguments Return {A} a.
Arguments Raise {A} e.

Section Monad.
  (** [S] is the state threaded through the statements. *)
Context {S : Type}.

Definition M (A : Type) : Type := S -> outcome A * S.

Definition ret {A} (a : A) : M A := fun s => (Return a, s).

Definition raise_ {A} (e : exn) : M A := fun s => (Raise e, s).

Definition bind {A B} (m : M A) (k : A -> M B) : M B :=
    fun s =>
      match m s with
      | (Return a, s1) => k a s1
      | (Raise e, s1) => (Raise e, s1)
      end.

Definition get : M S := fun s => (Return s, s).

Definition modify (f : S -> S) : M unit := fun s => (Return tt, f s).

  (** [try: block  except C as e: handler e], where [matches] decides
      [isinstance(e, C)]. An exception of the handler replaces the caught
      one; an exception that does not match passes through. *)
Definition try_except {A} (block : M A) (matches : exn -> bool)
             (handler : exn -> M A) : M A :=
    fun s =>
      match block s with
      | (Return a, s1) => (Return a, s1)
      | (Raise e, s1) => if matches e then handler e s1 else (Raise e, s1)
      end.

  (** [try: block  finally: final]. The [finally] suite runs on every exit
      of the block; if it raises, its exception replaces the outcome of the
      block. *)
Definition try_finally {A} (block : M A) (final : M unit) : M A :=
    fun s =>
      match block s with
      | (r, s1) =>
          match final s1 with
          | (Return _, s2) => (r, s2)
          | (Raise e', s2) => (Raise e', s2)
          end
      end.
End Monad.

Arguments M : clear implicits.

Declare Scope py_scope.
Delimit Scope py_scope with py.
Notation "x <- m ;; k" := (bind m (fun x => k))
  (at level 100, m at next level, right associativity) : py_scope.
Notation "m ;; k" := (bind m (fun _ => k))
  (at level 100, right associativity) : py_scope.

End Py.

(* ===================================================================== *)
(** ** database.py *)
(* ===================================================================== *)

Module Database.
Import Py.
Local Open Scope py_scope.

(** *** Import-time configuration (lines 12-22) *)

(** What the module sees of the operating system when it is imported: the
    process environment, the key/value pairs of the [.env] file (empty when
    there is none), and which paths exist. *)
Record os_state : Type := OsState {
  environ : gmap string string;
  dotenv_values : gmap string string;
  path_exists : string -> bool
}.

(** [load_dotenv()]: every pair of the [.env] file is put in the
    environment unless the variable is already set there. *)
Definition load_dotenv (os : os_state) : os_state :=
  {| environ := environ os ∪ dotenv_values os;
     dotenv_values := dotenv_values os;
     path_exists := path_exists os |}.

(** [os.getenv(name)]. *)
Definition os_getenv (os : os_state) (name : string) : option string :=
  environ os !! name.

(** Truth value of an [Optional[str]]: [None] and the empty string are
    false. *)
Definition truthy_str (v : option string) : bool :=
  match v with
  | None | Some EmptyString => false
  | Some _ => true
  end.

(** The module object after a successful import. [get_db_connection] is an
    attribute of it, so it can only be called on a value of this type. *)
Record module : Type := Module_ { SQLITE_DB_PATH : string }.

(** The module body up to line 22. [inl e]: the import raises [e] and no
    module object exists. *)
Definition import_module (os : os_state) : exn + module :=
  let os := load_dotenv os in
  let v := os_getenv os "SQLITE_DB" in
  if negb (truthy_str v) then
    inl (Exn ValueError
      "SQLITE_DB environment variable is not set. Please configure the database path in .env file.")
  else
    (* [v] is a non-empty string from here on *)
    let p := default EmptyString v in
    if negb (path_exists os p) then
      inl (Exn FileNotFoundError
        ("SQLite database file not found at " ++ p
         ++ ". Please ensure the database is initialized."))
    else inr (Module_ p).

(** *** The connection manager (lines 25-51) *)

Inductive row_factory_kind : Type := sqlite3_Row.

(** A [sqlite3.Connection] as far as the manager touches it. *)
Record Connection : Type := Conn {
  database : string;
  row_factory : option row_factory_kind
}.

(** Calls into the [sqlite3] library, in the order they are made. *)
Inductive event : Type :=
  | Connect (path : string)
  | Execute (sql : string)
  | Commit
  | Rollback
  | Close.

#[export] Instance event_eq_dec : EqDecision event.
Proof. solve_decision. Defined.

(** The generator frame of [get_db_connection]: the calls made so far and
    the local variable [conn]. *)
Record frame : Type := Frame {
  trace : list event;
  conn : option Connection
}.

(** The database behind the connection: the statements that are part of
    the file, those executed on the connection and not yet committed, and
    whether the connection is open. *)
Record db_state : Type := Db {
  committed : list string;
  pending : list string;
  is_open : bool
}.

(** The block under [with get_db_connection() as conn:]. It sees the
    connection and the calls made so far, and ends with the calls it made
    itself and its outcome. It has no access to the manager's frame. *)
Definition with_body (A : Type) : Type :=
  Connection -> list event -> outcome A * list event.

Section Manager.
  (** The behaviour of the [sqlite3] library: whether a call, made after a
      given history of calls, raises, and what. *)
Variable sqlite3_raises : event -> list event -> option exn.

  (** One library call: it is recorded, then it returns or raises. *)
Definition sqlite3_call (ev : event) : M frame unit :=
    fun fr =>
      let fr' := {| trace := trace fr ++ [ev]; conn := conn fr |} in
      match sqlite3_raises ev (trace fr) with
      | Some e => (Raise e, fr')
      | None => (Return tt, fr')
      end.

Definition sqlite3_connect (path : string) : M frame Connection :=
    sqlite3_call (Connect path) ;; ret (Conn path None).

Definition assign_conn (v : option Connection) : M frame unit :=
    modify (fun fr => {| trace := trace fr; conn := v |}).

Definition read_conn : M frame (option Connection) :=
    fr <- get ;; ret (conn fr).

  (** [yield conn]: the body of the [with] statement runs here. What it
      returns is the value of the [with] block; what it raises is thrown
      into the generator at the [yield]. *)
Definition yield_ {A} (body : with_body A) (c : Connection) : M frame A :=
    fun fr =>
      match body c (trace fr) with
      | (r, evs) => (r, {| trace := trace fr ++ evs; conn := conn fr |})
      end.

  (** [if conn: conn.<method>()]; a connection object is always true. *)
Definition if_conn (method : event) : M frame unit :=
    v <- read_conn ;;
    match v with
    | Some _ => sqlite3_call method
    | None => ret tt
    end.

Definition get_db_connection {A} (m : module) (body : with_body A)
  : M frame A :=
  (* conn = None *)
  assign_conn None ;;
  try_finally
    (try_except
       ((* conn = sqlite3.connect(SQLITE_DB_PATH) *)
        c <- sqlite3_connect (SQLITE_DB_PATH m) ;;
        assign_conn (Some c) ;;
        (* conn.row_factory = sqlite3.Row *)
        let c := {| database := database c;
                    row_factory := Some sqlite3_Row |} in
        assign_conn (Some c) ;;
        (* yield conn *)
        a <- yield_ body c ;;
        (* conn.commit() *)
        sqlite3_call Commit ;;
        ret a)
       (* except sqlite3.Error as e: if conn: conn.rollback(); raise e *)
       isinstance_sqlite3_Error
       (fun e => if_conn Rollback ;; raise_ e))
    (* finally: if conn: conn.close() *)
    (if_conn Close).

  (** [get_db] (lines 55-73) wraps the manager and yields the same
      connection. *)
Definition get_db {A} (m : module) (body : with_body A) : M frame A :=
    get_db_connection m (fun c => body c).

  (** A whole [with] statement, started after the calls [h]: the outcome
      seen by the caller and the calls made up to that point. *)
Definition run_with {A} (m : module) (body : with_body A) (h : list event)
    : outcome A * list event :=
    match get_db_connection m body {| trace := h; conn := None |} with
    | (r, fr) => (r, trace fr)
    end.
(** What the calls do to the database, as [sqlite3] has it: a statement that
    is executed stays pending until [commit] makes it part of the file;
    [rollback] drops what is pending, and so does [close], which ends the
    connection without committing. A call that raises changes nothing. *)
Definition perform (ev : event) (st : db_state) : db_state :=
  match ev with
  | Connect _ => Db (committed st) [] true
  | Execute sql =>
      if is_open st then Db (committed st) (pending st ++ [sql]) true else st
  | Commit =>
      if is_open st then Db (committed st ++ pending st) [] true else st
  | Rollback =>
      if is_open st then Db (committed st) [] true else st
  | Close => Db (committed st) [] false
  end.

(** The state of the database after the calls [evs], made after the calls
    [h] from the state [st]. *)
Fixpoint effect (h : list event) (evs : list event) (st : db_state)
  : db_state :=
  match evs with
  | [] => st
  | ev :: rest =>
      effect (h ++ [ev]) rest
             (match sqlite3_raises ev h with
              | None => perform ev st
              | Some _ => st
              end)
  end.
End Manager.

(** A library that never raises. *)
Definition sqlite3_healthy : event -> list event -> option exn :=
  fun _ _ => None.

End Database.

(* ===================================================================== *)
(** ** schemas.py *)
(* ===================================================================== *)

Module Schemas.

(** What a request body holds for one key of a model: the key is absent,
    it is JSON [null], or it carries a value of the annotated type. A
    value of another JSON type, which pydantic either converts (the word
    [yes] or the number 1 for a [bool]) or rejects, has no place in this
    type: what is stated of a body is stated of the bodies of this
    shape. *)
Inductive input (A : Type) : Type :=
  | Missing
  | Null
  | Given (a : A).
Arguments Missing {A}.
Arguments Null {A}.
Arguments Given {A} a.

(** The request body of the todo endpoints, restricted to the keys the
    models declare (pydantic ignores any other key). *)
Record json_body : Type := Body {
  in_title : input string;
  in_description : input string;
  in_completed : input bool
}.

(** One entry of a pydantic [ValidationError]. *)
Inductive error_type : Type :=
  | missing
  | string_type
  | bool_type
  | string_too_short
  | string_too_long.

Record error_details : Type := Err { loc : string; type : error_type }.

#[export] Instance error_type_eq_dec : EqDecision error_type.
Proof. solve_decision. Defined.
#[export] Instance error_details_eq_dec : EqDecision error_details.
Proof. solve_decision. Defined.

(** A [ValidationError] carries the errors of every field that failed. *)
Definition ValidationError : Type := list error_details.

Definition validated (A : Type) : Type := ValidationError + A.

Definition errors {A} (v : validated A) : ValidationError :=
  match v with
  | inl errs => errs
  | inr _ => []
  end.

(** [Field(default, min_length=..., max_length=...)]. [default = None] is
    the ellipsis: the field is required. [T] is the Python type of the
    field's value, so a default of Python [None] is [Some None]. *)
Record FieldInfo (T : Type) : Type := Field {
  default : option T;
  min_length : option nat;
  max_length : option nat
}.
Arguments Field {T} default min_length max_length.
Arguments default {T} f.
Arguments min_length {T} f.
Arguments max_length {T} f.

(** A Python [str] is held as its UTF-8 text, and [len] counts its code
    points: every byte except the continuation bytes (those from 128 to
    191), which carry on the code point begun before them. *)
Definition is_continuation (c : ascii) : bool :=
  let n := nat_of_ascii c in
  ((128 <=? n) && (n <? 192))%nat.

Fixpoint len (s : string) : nat :=
  match s with
  | EmptyString => 0
  | String c rest => (if is_continuation c then 0 else 1) + len rest
  end.

(** The length constraints of a field on a string value, measured in code
    points as [len(s)] is. *)
Definition check_length {T} (f : FieldInfo T) (loc : string) (s : string)
  : ValidationError :=
  (match min_length f with
   | Some n =>
       if (len s <? n)%nat then [Err loc string_too_short] else []
   | None => []
   end ++
   match max_length f with
   | Some n =>
       if (n <? len s)%nat then [Err loc string_too_long] else []
   | None => []
   end)%list.

Definition use_default {T} (f : FieldInfo T) (loc : string) : validated T :=
  match default f with
  | Some d => inr d
  | None => inl [Err loc missing]
  end.

(** A field annotated [str]. *)
Definition validate_str (f : FieldInfo string) (loc : string)
           (i : input string) : validated string :=
  match i with
  | Missing => use_default f loc
  | Null => inl [Err loc string_type]
  | Given s =>
      match check_length f loc s with
      | [] => inr s
      | errs => inl errs
      end
  end.

(** A field annotated [Optional[str]]: [null] is accepted as [None]. *)
Definition validate_optional_str (f : FieldInfo (option string))
           (loc : string) (i : input string) : validated (option string) :=
  match i with
  | Missing => use_default f loc
  | Null => inr None
  | Given s =>
      match check_length f loc s with
      | [] => inr (Some s)
      | errs => inl errs
      end
  end.

(** A field annotated [bool]. *)
Definition validate_bool (f : FieldInfo bool) (loc : string)
           (i : input bool) : validated bool :=
  match i with
  | Missing => use_default f loc
  | Null => inl [Err loc bool_type]
  | Given b => inr b
  end.

(** A field annotated [Optional[bool]]. *)
Definition validate_optional_bool (f : FieldInfo (option bool))
           (loc : string) (i : input bool) : validated (option bool) :=
  match i with
  | Missing => use_default f loc
  | Null => inr None
  | Given b => inr (Some b)
  end.

(** [class TodoBase(BaseModel)] (lines 10-14); [TodoCreate] (line 18)
    inherits it unchanged. *)
Module TodoBase.
Record t : Type := Make {
  title : string;
  description : option string;
  completed : bool
}.

Definition title_field : FieldInfo string :=
  Field None (Some 1) (Some 500).
Definition description_field : FieldInfo (option string) :=
  Field (Some (Some EmptyString)) None (Some 2000).
Definition completed_field : FieldInfo bool :=
  Field (Some false) None None.

Definition validate (b : json_body) : validated t :=
  match validate_str title_field "title" (in_title b),
        validate_optional_str description_field "description" (in_description b),
        validate_bool completed_field "completed" (in_completed b) with
  | inr ti, inr de, inr co => inr (Make ti de co)
  | vt, vd, vc => inl (errors vt ++ errors vd ++ errors vc)%list
  end.
End TodoBase.

Module TodoCreate.
Definition t : Type := TodoBase.t.
Definition validate : json_body -> validated t := TodoBase.validate.
End TodoCreate.

(** [class TodoUpdate(BaseModel)] (lines 31-44). *)
Module TodoUpdate.
Record t : Type := Make {
  title : option string;
  description : option string;
  completed : option bool
}.

Definition title_field : FieldInfo (option string) :=
  Field (Some None) (Some 1) (Some 500).
Definition description_field : FieldInfo (option string) :=
  Field (Some None) None (Some 2000).
Definition completed_field : FieldInfo (option bool) :=
  Field (Some None) None None.

Definition validate (b : json_body) : validated t :=
  match validate_optional_str title_field "title" (in_title b),
        validate_optional_str description_field "description" (in_description b),
        validate_optional_bool completed_field "completed" (in_completed b) with
  | inr ti, inr de, inr co => inr (Make ti de co)
  | vt, vd, vc => inl (errors vt ++ errors vd ++ errors vc)%list
  end.
End TodoUpdate.

(** [class TodoComplete(BaseModel)] (lines 48-55). *)
Module TodoComplete.
Record t : Type := Make { completed : bool }.

Definition completed_field : FieldInfo bool := Field None None None.

Definition validate (i : input bool) : validated t :=
  match validate_bool completed_field "completed" i with
  | inr co => inr (Make co)
  | inl errs => inl errs
  end.
End TodoComplete.

(** Errors of the response models. Their location is a path, since an item
    of a list is reported under its index, and they include the type errors
    of [int] and [list] fields. *)
Inductive loc_item : Type :=
  | Key (name : string)
  | Index (n : nat).

Inductive response_error_type : Type :=
  | field_error (t : error_type)
  | int_type
  | list_type.

Record response_error : Type :=
  RErr { rloc : list loc_item; rtype : response_error_type }.

Definition response_validated (A : Type) : Type := list response_error + A.

Definition response_errors {A} (v : response_validated A)
  : list response_error :=
  match v with
  | inl errs => errs
  | inr _ => []
  end.

(** The error of a field of the model itself, located by the field name. *)
Definition at_key (e : error_details) : response_error :=
  RErr [Key (loc e)] (field_error (type e)).

Definition lift {A} (v : validated A) : response_validated A :=
  match v with
  | inl errs => inl (at_key <$> errs)
  | inr a => inr a
  end.

(** An error of a nested model, located below [prefix]. *)
Definition under (prefix : list loc_item) (e : response_error)
  : response_error :=
  RErr (prefix ++ rloc e)%list (rtype e).

(** A field annotated [int]. *)
Definition validate_int (f : FieldInfo Z) (loc : string) (i : input Z)
  : response_validated Z :=
  match i with
  | Missing =>
      match default f with
      | Some d => inr d
      | None => inl [RErr [Key loc] (field_error missing)]
      end
  | Null => inl [RErr [Key loc] int_type]
  | Given z => inr z
  end.

(** The keyword arguments a [TodoResponse] is built from. *)
Record todo_row : Type := Row {
  row_title : input string;
  row_description : input string;
  row_completed : input bool;
  row_id : input Z;
  row_created_at : input string;
  row_updated_at : input string
}.

(** [class TodoResponse(TodoBase)] (lines 59-78): the fields of [TodoBase]
    and the system-generated ones. *)
Module TodoResponse.
Record t : Type := Make {
  title : string;
  description : option string;
  completed : bool;
  id : Z;
  created_at : string;
  updated_at : string
}.

Definition id_field : FieldInfo Z := Field None None None.
Definition created_at_field : FieldInfo string := Field None None None.
Definition updated_at_field : FieldInfo string := Field None None None.

(** The three fields inherited from [TodoBase] keep its [Field]
    declarations; the errors of all six fields are reported in the order of
    declaration. *)
Definition validate (r : todo_row) : response_validated t :=
  let v1 := lift (validate_str TodoBase.title_field "title" (row_title r)) in
  let v2 := lift (validate_optional_str TodoBase.description_field
                    "description" (row_description r)) in
  let v3 := lift (validate_bool TodoBase.completed_field "completed"
                    (row_completed r)) in
  let v4 := validate_int id_field "id" (row_id r) in
  let v5 := lift (validate_str created_at_field "created_at"
                    (row_created_at r)) in
  let v6 := lift (validate_str updated_at_field "updated_at"
                    (row_updated_at r)) in
  match v1, v2, v3, v4, v5, v6 with
  | inr ti, inr de, inr co, inr i, inr ca, inr ua =>
      inr (Make ti de co i ca ua)
  | _, _, _, _, _, _ =>
      inl (response_errors v1 ++ response_errors v2 ++ response_errors v3
           ++ response_errors v4 ++ response_errors v5
           ++ response_errors v6)%list
  end.

(** The keyword arguments that carry the fields of a response; a
    description of [None] is passed as such. *)
Definition to_row (x : t) : todo_row :=
  Row (Given (title x))
      (match description x with Some d => Given d | None => Null end)
      (Given (completed x))
      (Given (id x))
      (Given (created_at x))
      (Given (updated_at x)).

(** The length bounds of the inherited title and description fields. *)
Definition in_bounds (x : t) : Prop :=
  1 <= len (title x) <= 500
  /\ forall d, description x = Some d -> len d <= 2000.
End TodoResponse.

(** What a [TodoListResponse] is built from. *)
Record list_input : Type := ListIn {
  in_todos : input (list todo_row);
  in_total : input Z
}.

(** [class TodoListResponse(BaseModel)] (lines 82-91). *)
Module TodoListResponse.
Record t : Type := Make {
  todos : list TodoResponse.t;
  total : Z
}.

Definition todos_default : list TodoResponse.t := [].
Definition total_field : FieldInfo Z := Field None None None.

(** The items of [todos], each validated as a [TodoResponse]; the errors
    of the item at index [n] are reported below [todos] and [n]. *)
Fixpoint validate_items (n : nat) (rows : list todo_row)
  : response_validated (list TodoResponse.t) :=
  match rows with
  | [] => inr []
  | r :: rest =>
      let v := TodoResponse.validate r in
      let vs := validate_items (S n) rest in
      match v, vs with
      | inr x, inr xs => inr (x :: xs)
      | _, _ =>
          inl ((under [Key "todos"; Index n] <$> response_errors v)
               ++ response_errors vs)%list
      end
  end.

Definition validate_todos (i : input (list todo_row))
  : response_validated (list TodoResponse.t) :=
  match i with
  | Missing => inr todos_default
  | Null => inl [RErr [Key "todos"] list_type]
  | Given rows => validate_items 0 rows
  end.

Definition validate (l : list_input) : response_validated t :=
  let v1 := validate_todos (in_todos l) in
  let v2 := validate_int total_field "total" (in_total l) in
  match v1, v2 with
  | inr ts, inr n => inr (Make ts n)
  | _, _ => inl (response_errors v1 ++ response_errors v2)%list
  end.
End TodoListResponse.

(** A string that has only whitespace in it ([str.isspace] on the ASCII
    range; the empty string has none and is not one). *)
Definition is_space (c : ascii) : bool :=
  let n := nat_of_ascii c in
  ((n =? 32) || ((9 <=? n) && (n <=? 13)) || ((28 <=? n) && (n <=? 31)))%nat.

Fixpoint all_space (s : string) : bool :=
  match s with
  | EmptyString => true
  | String c s' => is_space c && all_space s'
  end.

Definition isspace (s : string) : bool :=
  match s with
  | EmptyString => false
  | _ => all_space s
  end.

End Schemas.

(* ===================================================================== *)
(** ** The repository operations *)
(* ===================================================================== *)

Module Routes.
Import Schemas.

Definition Todo : Type := TodoResponse.t.

(** Modelled from the spec: [routes.py] is imported by [main.py] but is not
    among the source files, so the store and the operations on it follow
    sections 3 and 4.2 of the specification. The store holds the Todo rows
    by [id] and the last [id] handed out. *)
Record store : Type := Store {
  rows : gmap Z Todo;
  last_id : Z
}.

Definition empty_store : store := Store ∅ 0.

Inductive error : Type :=
  | NotFoundError (id : Z)
  | InvalidError (errs : ValidationError).

(** Modelled from the spec: [routes.py] is missing; "create(title,
    description?, completed?): assigns the next unique id, sets created_at
    = updated_at = current time". *)
Definition create (c : TodoCreate.t) (now : string) (st : store)
  : Todo * store :=
  let i := (last_id st + 1)%Z in
  let todo :=
    TodoResponse.Make (TodoBase.title c) (TodoBase.description c)
                      (TodoBase.completed c) i now now in
  (todo, Store (<[i := todo]> (rows st)) i).

(** Modelled from the spec: [routes.py] is missing; "getById(id): single
    Todo or NotFoundError if id does not exist". *)
Definition get_by_id (i : Z) (st : store) : error + Todo :=
  match rows st !! i with
  | Some todo => inr todo
  | None => inl (NotFoundError i)
  end.

(** Modelled from the spec: [routes.py] is missing; "update(id,
    partialFields): applies only the supplied fields
    (title/description/completed), leaves others untouched, refreshes
    updated_at. Fails NotFoundError if id absent". A field of the validated
    [TodoUpdate] that is [None] is a field that was not supplied. *)
Definition update (i : Z) (u : TodoUpdate.t) (now : string) (st : store)
  : error + Todo * store :=
  match rows st !! i with
  | None => inl (NotFoundError i)
  | Some old =>
      let todo :=
        TodoResponse.Make
          (match TodoUpdate.title u with
           | Some x => x
           | None => TodoResponse.title old
           end)
          (match TodoUpdate.description u with
           | Some x => Some x
           | None => TodoResponse.description old
           end)
          (match TodoUpdate.completed u with
           | Some x => x
           | None => TodoResponse.completed old
           end)
          (TodoResponse.id old)
          (TodoResponse.created_at old)
          now in
      inr (todo, Store (<[i := todo]> (rows st)) (last_id st))
  end.

(** Modelled from the spec: [routes.py] is missing; "setCompleted(id,
    completed: bool): narrow update touching only completed and
    updated_at. Fails NotFoundError if absent". *)
Definition set_completed (i : Z) (c : TodoComplete.t) (now : string)
           (st : store) : error + Todo * store :=
  match rows st !! i with
  | None => inl (NotFoundError i)
  | Some old =>
      let todo :=
        TodoResponse.Make
          (TodoResponse.title old) (TodoResponse.description old)
          (TodoComplete.completed c)
          (TodoResponse.id old) (TodoResponse.created_at old) now in
      inr (todo, Store (<[i := todo]> (rows st)) (last_id st))
  end.

(** Modelled from the spec: [routes.py] is missing; "delete(id): removes
    the row permanently. Fails NotFoundError if absent". *)
Definition delete_todo (i : Z) (st : store) : error + store :=
  match rows st !! i with
  | None => inl (NotFoundError i)
  | Some _ => inr (Store (delete i (rows st)) (last_id st))
  end.

(** A request as the routing layer hands it over: the operation, the raw
    body, and the time of the request. *)
Inductive request : Type :=
  | POST_todos (b : json_body) (now : string)
  | PATCH_todo (i : Z) (b : json_body) (now : string)
  | PATCH_todo_complete (i : Z) (c : input bool) (now : string)
  | DELETE_todo (i : Z).

(** Modelled from the spec: [routes.py] is missing; "inbound request,
    validates shape against schemas, repository operation, result". The
    body is validated with the models of [schemas.py]; a request that
    fails leaves the store as it was. *)
Definition handle (st : store) (r : request) : (error + option Todo) * store :=
  match r with
  | POST_todos b now =>
      match TodoCreate.validate b with
      | inl errs => (inl (InvalidError errs), st)
      | inr c => let '(todo, st') := create c now st in (inr (Some todo), st')
      end
  | PATCH_todo i b now =>
      match TodoUpdate.validate b with
      | inl errs => (inl (InvalidError errs), st)
      | inr u =>
          match update i u now st with
          | inl e => (inl e, st)
          | inr (todo, st') => (inr (Some todo), st')
          end
      end
  | PATCH_todo_complete i c now =>
      match TodoComplete.validate c with
      | inl errs => (inl (InvalidError errs), st)
      | inr c =>
          match set_completed i c now st with
          | inl e => (inl e, st)
          | inr (todo, st') => (inr (Some todo), st')
          end
      end
  | DELETE_todo i =>
      match delete_todo i st with
      | inl e => (inl e, st)
      | inr st' => (inr None, st')
      end
  end.

(** The store after a sequence of requests, starting from the empty one. *)
Definition serve (rs : list request) : store :=
  foldl (fun st r => snd (handle st r)) empty_store rs.

(** Every Todo in the store satisfies [P]. *)
Definition all_todos (P : Todo -> Prop) (st : store) : Prop :=
  forall (i : Z) (todo : Todo), rows st !! i = Some todo -> P todo.

(** The bound that the title fields of [schemas.py] put on a stored
    title. *)
Definition title_in_bounds (todo : Todo) : Prop :=
  1 <= len (TodoResponse.title todo) <= 500.

End Routes.

(* ===================================================================== *)
(** ** main.py *)
(* ===================================================================== *)

Module Main.
Import Database.

(** [os.getenv(name, default)]. *)
Definition os_getenv_default (os : os_state) (name default_ : string)
  : string :=
  match environ os !! name with
  | Some v => v
  | None => default_
  end.

(** [s.split(sep)] for a separator of one character: the pieces between
    the occurrences of [sep], empty pieces included. *)
Fixpoint split (sep : ascii) (s : string) : list string :=
  match s with
  | EmptyString => [EmptyString]
  | String ch rest =>
      if Ascii.eqb ch sep then EmptyString :: split sep rest
      else
        match split sep rest with
        | piece :: pieces => String ch piece :: pieces
        | [] => [String ch EmptyString]
        end
  end.

(** [sep.join(pieces)]. *)
Fixpoint join (sep : ascii) (pieces : list string) : string :=
  match pieces with
  | [] => EmptyString
  | [piece] => piece
  | piece :: rest => (piece ++ String sep (join sep rest))%string
  end.

(** The arguments of [app.add_middleware(CORSMiddleware, ...)]
    (lines 39-45). *)
Record CORSMiddleware : Type := Cors {
  allow_origins : list string;
  allow_credentials : bool;
  allow_methods : list string;
  allow_headers : list string
}.

(** [x if x != ["*"] else ["*"]]. *)
Definition unless_star (x : list string) : list string :=
  if bool_decide (x <> ["*"]) then x else ["*"].

(** Lines 15 and 35-45: the environment is loaded and the three allow
    lists are read from it. *)
Definition cors_middleware (os : os_state) : CORSMiddleware :=
  let os := load_dotenv os in
  let allowed_origins :=
    split "," (os_getenv_default os "ALLOWED_ORIGINS" "*") in
  let allowed_methods :=
    split "," (os_getenv_default os "ALLOWED_METHODS" "*") in
  let allowed_headers :=
    split "," (os_getenv_default os "ALLOWED_HEADERS" "*") in
  {| allow_origins := unless_star allowed_origins;
     allow_credentials := true;
     allow_methods := unless_star allowed_methods;
     allow_headers := unless_star allowed_headers |}.

(** The three allow lists of a configuration, each with the variable it
    is read from. *)
Definition allow_lists (c : CORSMiddleware) : list (string * list string) :=
  [("ALLOWED_ORIGINS", allow_origins c);
   ("ALLOWED_METHODS", allow_methods c);
   ("ALLOWED_HEADERS", allow_headers c)].

(** Whether a character occurs in a string. *)
Fixpoint occurs (ch : ascii) (s : string) : bool :=
  match s with
  | EmptyString => false
  | String c rest => Ascii.eqb c ch || occurs ch rest
  end.

(** How often a character occurs in a string. *)
Fixpoint occurrences (ch : ascii) (s : string) : nat :=
  match s with
  | EmptyString => 0
  | String c rest =>
      (if Ascii.eqb c ch then 1 else 0) + occurrences ch rest
  end.

End Main.

(* ===================================================================== *)
(** ** Sample inputs *)
(* ===================================================================== *)

Module Samples.
Import Py Database Schemas Routes Main.

(** Two misconfigured systems and a configured one. *)
Definition os_unset : os_state :=
  OsState {[ "HOME" := "/root" ]} ∅ (fun _ => true).

Definition os_no_file : os_state :=
  OsState ∅ {[ "SQLITE_DB" := "/data/todos.db" ]} (fun _ => false).

Definition os_ready : os_state :=
  OsState {[ "SQLITE_DB" := "/data/todos.db" ]} ∅
          (fun p => String.eqb p "/data/todos.db").

Definition todos_db : module := Module_ "/data/todos.db".

(** A library whose [rollback] fails. *)
Definition sqlite3_rollback_fails : event -> list event -> option exn :=
  fun ev _ =>
    match ev with
    | Rollback => Some (Exn sqlite3_OperationalError "cannot rollback")
    | _ => None
    end.

(** A library that cannot open the database file. *)
Definition sqlite3_unreachable : event -> list event -> option exn :=
  fun ev _ =>
    match ev with
    | Connect _ => Some (Exn sqlite3_OperationalError
                           "unable to open database file")
    | _ => None
    end.

(** A library whose [commit] fails. *)
Definition sqlite3_commit_fails : event -> list event -> option exn :=
  fun ev _ =>
    match ev with
    | Commit => Some (Exn sqlite3_OperationalError "database is locked")
    | _ => None
    end.

(** A system whose environment sets the variable to the empty string while
    the [.env] file names an existing database. *)
Definition os_empty_in_environ : os_state :=
  OsState {[ "SQLITE_DB" := EmptyString ]}
          {[ "SQLITE_DB" := "/data/todos.db" ]}
          (fun _ => true).

(** The string of [n] copies of a character. *)
Fixpoint copies (n : nat) (ch : ascii) : string :=
  match n with
  | O => EmptyString
  | S n' => String ch (copies n' ch)
  end.

(** A stored Todo, and one whose title is too long to be returned. *)
Definition milk : TodoResponse.t :=
  TodoResponse.Make "Buy milk" (Some "2 litres") false 1
                    "2024-05-01 10:00:00" "2024-05-01 10:00:00".

Definition long_title : TodoResponse.t :=
  TodoResponse.Make (copies 501 "a") None false 2
                    "2024-05-01 10:00:00" "2024-05-01 10:00:00".

(** The keyword arguments of a response whose title is empty. *)
Definition untitled_row : todo_row :=
  Row (Given EmptyString) Null (Given false) (Given 3%Z)
      (Given "2024-05-01 10:00:00") (Given "2024-05-01 10:00:00").

(** A system that lists two origins, and one that sets the origins to the
    empty string. *)
Definition os_two_origins : os_state :=
  OsState
    {[ "ALLOWED_ORIGINS" := "http://localhost:3000,https://todo.example" ]}
    ∅ (fun _ => true).

Definition os_empty_origins : os_state :=
  OsState {[ "ALLOWED_ORIGINS" := EmptyString ]} ∅ (fun _ => true).

(** A database file that holds one earlier insert, with no connection
    open. *)
Definition db_one_row : db_state :=
  Db ["INSERT INTO todos"] [] false.

(** The same string [n] times over. *)
Fixpoint times (n : nat) (s : string) : string :=
  match n with
  | O => EmptyString
  | S n' => (s ++ times n' s)%string
  end.

(** A handler that inserts a row and returns. *)
Definition body_insert : with_body unit :=
  fun _ _ => (Return tt, [Execute "INSERT INTO todos"]).

(** A handler that updates a row and then raises an exception that is not
    a [sqlite3.Error]. *)
Definition body_not_found : with_body unit :=
  fun _ _ => (Raise (Exn HTTPException "Todo not found"),
              [Execute "UPDATE todos"]).

(** A handler whose statement violates a constraint of the store. *)
Definition body_integrity : with_body unit :=
  fun _ _ => (Raise (Exn sqlite3_IntegrityError "NOT NULL constraint failed"),
              [Execute "INSERT INTO todos"]).

Definition create_body (title : string) : json_body :=
  Body (Given title) Missing Missing.

Definition create_body_with (title description : string) : json_body :=
  Body (Given title) (Given description) Missing.

(** Update bodies: nothing supplied, the description cleared, the title
    cleared. *)
Definition update_nothing : json_body := Body Missing Missing Missing.

Definition update_clear_description : json_body :=
  Body Missing (Given EmptyString) Missing.

Definition update_clear_title : json_body :=
  Body (Given EmptyString) Missing Missing.

Definition update_completed_only : json_body :=
  Body Missing Missing (Given true).

(** The store after one create request, and after a create request whose
    title is a single space. *)
Definition one_todo : store :=
  serve [POST_todos (create_body_with "Buy milk" "2 litres")
           "2024-05-01 10:00:00"].

Definition blank_todo : store :=
  serve [POST_todos (create_body " ") "2024-05-01 10:00:00"].

End Samples.

(* ===================================================================== *)
(** ** Properties of database.py *)
(* ===================================================================== *)

Module DatabaseSpec.
Import Py Database Samples.
Local Open Scope list_scope.

(** *** Startup configuration *)

Lemma truthy_str_Some (v : option string) :
  truthy_str v = true -> v = Some (default EmptyString v).
Proof. destruct v as [[|c s]|]; simpl; congruence. Qed.

Lemma import_module_unset (os : os_state) :
  truthy_str (os_getenv (load_dotenv os) "SQLITE_DB") = false ->
  exists msg, import_module os = inl (Exn ValueError msg).
Proof. intros H. unfold import_module. rewrite H. simpl. eauto. Qed.

Lemma import_module_not_found (os : os_state) (p : string) :
  os_getenv (load_dotenv os) "SQLITE_DB" = Some p ->
  truthy_str (Some p) = true ->
  path_exists os p = false ->
  exists msg, import_module os = inl (Exn FileNotFoundError msg).
Proof.
  intros Hp Ht He. unfold import_module. rewrite Hp, Ht. simpl.
  rewrite He. simpl. eauto.
Qed.

Lemma import_module_inr (os : os_state) (m : module) :
  import_module os = inr m ->
  os_getenv (load_dotenv os) "SQLITE_DB" = Some (SQLITE_DB_PATH m)
  /\ SQLITE_DB_PATH m <> EmptyString
  /\ path_exists os (SQLITE_DB_PATH m) = true.
Proof.
  unfold import_module.
  destruct (truthy_str _) eqn:Ht; simpl; [|discriminate].
  apply truthy_str_Some in Ht as Hv.
  set (p := default EmptyString _) in *.
  destruct (path_exists os p) eqn:He; simpl; [|discriminate].
  intros [= <-]. simpl. repeat split; try assumption.
  intros Hp. rewrite Hv, Hp in Ht. discriminate.
Qed.

(** C4. If, once [load_dotenv()] has run, [SQLITE_DB] is not set, or the
    path it names does not exist, importing the module raises (a
    [ValueError] when the variable is unset or empty, a [FileNotFoundError]
    when the file is missing), so no module object and no
    [get_db_connection] exist; an import that succeeds has a path that is
    set and exists. *)
Theorem C4_startup_fails_fast (os : os_state) :
  (os_getenv (load_dotenv os) "SQLITE_DB" = None ->
   exists msg, import_module os = inl (Exn ValueError msg))
  /\ (forall p : string,
        os_getenv (load_dotenv os) "SQLITE_DB" = Some p ->
        path_exists os p = false ->
        exists msg,
          import_module os =
            inl (Exn (if truthy_str (Some p) then FileNotFoundError
                      else ValueError) msg))
  /\ (forall m : module,
        import_module os = inr m ->
        os_getenv (load_dotenv os) "SQLITE_DB" = Some (SQLITE_DB_PATH m)
        /\ path_exists os (SQLITE_DB_PATH m) = true).
Proof.
  split; [|split].
  - intros H. apply import_module_unset. now rewrite H.
  - intros p Hp He. destruct (truthy_str (Some p)) eqn:Ht.
    + now apply import_module_not_found with (p := p).
    + apply import_module_unset. now rewrite Hp.
  - intros m Hm. apply import_module_inr in Hm as (? & _ & ?). now split.
Qed.

Lemma C4_startup_fails_fast_witness :
  (exists msg, import_module os_unset = inl (Exn ValueError msg))
  /\ (exists msg, import_module os_no_file = inl (Exn FileNotFoundError msg))
  /\ (os_getenv (load_dotenv os_ready) "SQLITE_DB" = Some "/data/todos.db"
      /\ path_exists os_ready "/data/todos.db" = true).
Proof.
  split; [|split].
  - apply (proj1 (C4_startup_fails_fast os_unset)). reflexivity.
  - apply (proj1 (proj2 (C4_startup_fails_fast os_no_file)) "/data/todos.db");
      reflexivity.
  - apply (proj2 (proj2 (C4_startup_fails_fast os_ready))
             (Module_ "/data/todos.db")).
    reflexivity.
Defined.

(** *** The connection manager *)

Ltac run_manager :=
  unfold run_with, get_db_connection, try_finally, try_except, if_conn,
    read_conn, sqlite3_connect, yield_, assign_conn, sqlite3_call, bind,
    ret, raise_, get, modify; simpl.

Section ManagerFacts.
Variable sqlite3_raises : event -> list event -> option exn.
Variable A : Type.
Variable m : module.
Variable body : with_body A.
Variable h : list event.

Let p : string := SQLITE_DB_PATH m.
Let c : Connection := Conn p (Some sqlite3_Row).

(** The connection cannot be opened: the error of [connect] reaches the
    caller, and neither the body nor any other call is made. *)
Lemma run_with_connect_raises (e : exn) :
  sqlite3_raises (Connect p) h = Some e ->
  run_with sqlite3_raises m body h = (Raise e, h ++ [Connect p]).
Proof.
  intros Hc. run_manager. fold p. rewrite Hc. simpl.
  destruct (isinstance_sqlite3_Error e); reflexivity.
Qed.

(** The body raised [e]: [rollback] is called if [except sqlite3.Error]
    catches [e], [close] is called, and an exception reaches the caller;
    it is [e] itself unless [rollback] or [close] raised in turn. *)
Lemma run_with_body_raises (e : exn) (evs : list event) :
  sqlite3_raises (Connect p) h = None ->
  body c (h ++ [Connect p]) = (Raise e, evs) ->
  let undo := if isinstance_sqlite3_Error e then [Rollback] else [] in
  exists e' : exn,
    run_with sqlite3_raises m body h
      = (Raise e', ((h ++ [Connect p]) ++ evs) ++ undo ++ [Close])
    /\ (e' = e
        \/ (isinstance_sqlite3_Error e = true
            /\ sqlite3_raises Rollback ((h ++ [Connect p]) ++ evs) = Some e')
        \/ sqlite3_raises Close (((h ++ [Connect p]) ++ evs) ++ undo)
           = Some e').
Proof.
  intros Hc Hb. run_manager. fold p. rewrite Hc. simpl. fold c.
  rewrite Hb. simpl.
  destruct (isinstance_sqlite3_Error e) eqn:Hi; simpl.
  - destruct (sqlite3_raises Rollback _) as [er|] eqn:Hr; simpl;
      rewrite <- !(assoc_L (++)); simpl;
      destruct (sqlite3_raises Close _) as [ec|] eqn:Hcl; simpl;
      eexists; (split; [reflexivity|]);
      rewrite <- ?(assoc_L (++)) in *; simpl in *; eauto.
  - rewrite !app_nil_r.
    destruct (sqlite3_raises Close _) as [ec|] eqn:Hcl; simpl;
      rewrite <- !(assoc_L (++)); simpl;
      eexists; (split; [reflexivity|]); eauto.
Qed.

(** The body returned [a]: [commit] is called; if it raises a
    [sqlite3.Error], [rollback] follows; [close] is called last. *)
Lemma run_with_body_returns (a : A) (evs : list event) :
  sqlite3_raises (Connect p) h = None ->
  body c (h ++ [Connect p]) = (Return a, evs) ->
  let h2 := (h ++ [Connect p]) ++ evs in
  let undo :=
    match sqlite3_raises Commit h2 with
    | Some ec => if isinstance_sqlite3_Error ec then [Rollback] else []
    | None => []
    end in
  exists r : outcome A,
    run_with sqlite3_raises m body h = (r, h2 ++ Commit :: undo ++ [Close])
    /\ (sqlite3_raises Commit h2 = None ->
        sqlite3_raises Close (h2 ++ [Commit]) = None ->
        r = Return a).
Proof.
  intros Hc Hb. run_manager. fold p. rewrite Hc. simpl. fold c.
  rewrite Hb. simpl.
  destruct (sqlite3_raises Commit _) as [ec|] eqn:Hco; simpl.
  - destruct (isinstance_sqlite3_Error ec) eqn:Hi; simpl.
    + destruct (sqlite3_raises Rollback _) as [er|]; simpl;
        rewrite <- !(assoc_L (++)); simpl;
        destruct (sqlite3_raises Close _) as [ecl|]; simpl;
        eexists; (split; [reflexivity|]); intros; discriminate.
    + destruct (sqlite3_raises Close _) as [ecl|]; simpl;
        rewrite <- !(assoc_L (++)); simpl;
        eexists; (split; [reflexivity|]); intros; discriminate.
  - destruct (sqlite3_raises Close _) as [ecl|] eqn:Hcl; simpl;
      rewrite <- !(assoc_L (++)); simpl;
      eexists; (split; [reflexivity|]); intros _ Hcl'.
    + rewrite <- ?(assoc_L (++)) in Hcl', Hcl. simpl in Hcl', Hcl. congruence.
    + reflexivity.
Qed.

(** The calls [a] and then [b] have the effect of [b] after that of [a]. *)
Lemma effect_app (a b : list event) :
  forall (h0 : list event) (st : db_state),
    effect sqlite3_raises h0 (a ++ b) st
    = effect sqlite3_raises (h0 ++ a) b (effect sqlite3_raises h0 a st).
Proof.
  induction a as [|ev a IH]; intros h0 st; simpl.
  - now rewrite app_nil_r.
  - rewrite IH. now rewrite <- (assoc_L (++)).
Qed.

(** A [close] that succeeds leaves nothing pending and the file as it
    was, whether or not a [rollback] came first and whatever that did. *)
Lemma effect_cleanup (h0 : list event) (undo : list event) (st : db_state) :
  undo = [] \/ undo = [Rollback] ->
  sqlite3_raises Close (h0 ++ undo) = None ->
  effect sqlite3_raises h0 (undo ++ [Close]) st
  = Db (committed st) [] false.
Proof.
  intros [Hu|Hu] Hcl; subst undo; simpl.
  - rewrite app_nil_r in Hcl. now rewrite Hcl.
  - rewrite Hcl.
    destruct (sqlite3_raises Rollback h0); [reflexivity|].
    unfold perform. destruct (is_open st); reflexivity.
Qed.

(** C1. When the body raises, whatever the class of its exception, and
    [close] itself succeeds, then by the time an exception reaches the
    caller the changes that were pending when the body raised are
    discarded: nothing is pending, the file holds what was committed
    before, and the connection is closed. The manager reaches this by
    [rollback] and [close] for a [sqlite3.Error] and by [close] alone,
    which ends the connection without committing, for any other
    exception. The exception that reaches the caller is the body's own
    unless [rollback] raised. *)
Theorem C1_body_raises_pending_changes_discarded_and_closed
        (e : exn) (evs : list event) (st0 : db_state) :
  sqlite3_raises (Connect p) h = None ->
  body c (h ++ [Connect p]) = (Raise e, evs) ->
  sqlite3_raises Close
    (((h ++ [Connect p]) ++ evs)
       ++ (if isinstance_sqlite3_Error e then [Rollback] else []))
    = None ->
  exists e' : exn,
    run_with sqlite3_raises m body h
      = (Raise e',
         h ++ (Connect p :: evs)
           ++ (if isinstance_sqlite3_Error e then [Rollback] else [])
           ++ [Close])
    /\ (let at_raise := effect sqlite3_raises h (Connect p :: evs) st0 in
        let at_exit :=
          effect sqlite3_raises h
            ((Connect p :: evs)
               ++ (if isinstance_sqlite3_Error e then [Rollback] else [])
               ++ [Close]) st0 in
        pending at_exit = []
        /\ committed at_exit = committed at_raise
        /\ is_open at_exit = false)
    /\ (sqlite3_raises Rollback ((h ++ [Connect p]) ++ evs) = None ->
        e' = e).
Proof.
  intros Hc Hb Hcl.
  destruct (run_with_body_raises e evs Hc Hb) as (e' & Hrun & He').
  simpl in Hrun, He'. exists e'. split; [|split].
  - rewrite Hrun. f_equal. rewrite <- !(assoc_L (++)). reflexivity.
  - cbv zeta. rewrite effect_app.
    rewrite effect_cleanup; [now repeat split| |].
    + destruct (isinstance_sqlite3_Error e); auto.
    + rewrite <- Hcl. f_equal. rewrite <- !(assoc_L (++)). reflexivity.
  - intros Hr. destruct He' as [He'|[[_ He']|He']]; congruence.
Qed.

(** X24. When the body raises [e], the manager calls [rollback] exactly
    when [e] is a [sqlite3.Error], then calls [close], and only then does
    an exception reach the caller: [e] itself, unless [rollback] or
    [close] raised in turn. For an exception of any other class the only
    call after the body is [close]. *)
Theorem X24_body_raises_rollback_call_iff_sqlite_error_then_close
        (e : exn) (evs : list event) :
  sqlite3_raises (Connect p) h = None ->
  body c (h ++ [Connect p]) = (Raise e, evs) ->
  exists e' : exn,
    run_with sqlite3_raises m body h
      = (Raise e',
         ((h ++ [Connect p]) ++ evs)
           ++ (if isinstance_sqlite3_Error e then [Rollback] else [])
           ++ [Close])
    /\ (sqlite3_raises Rollback ((h ++ [Connect p]) ++ evs) = None ->
        sqlite3_raises Close
          (((h ++ [Connect p]) ++ evs)
             ++ (if isinstance_sqlite3_Error e then [Rollback] else []))
          = None ->
        e' = e).
Proof.
  intros Hc Hb.
  destruct (run_with_body_raises e evs Hc Hb) as (e' & Hrun & He').
  exists e'. split; [exact Hrun|].
  intros Hr Hcl. destruct He' as [He'|[[_ He']|He']]; congruence.
Qed.

(** C2. When the body returns, the manager calls [commit] exactly once and
    [close] last: its calls after the body are [commit; close], with a
    [rollback] in between only when [commit] itself raised a
    [sqlite3.Error]. When neither [commit] nor [close] raises, the [with]
    statement ends normally with the calls [commit; close]. *)
Theorem C2_body_returns_commit_once_then_close
        (a : A) (evs : list event) :
  sqlite3_raises (Connect p) h = None ->
  body c (h ++ [Connect p]) = (Return a, evs) ->
  exists (r : outcome A) (after : list event),
    run_with sqlite3_raises m body h
      = (r, ((h ++ [Connect p]) ++ evs) ++ after)
    /\ count_occ event_eq_dec after Commit = 1
    /\ head after = Some Commit
    /\ last after = Some Close
    /\ (after = [Commit; Close] \/ after = [Commit; Rollback; Close])
    /\ (sqlite3_raises Commit ((h ++ [Connect p]) ++ evs) = None ->
        after = [Commit; Close]
        /\ (sqlite3_raises Close (((h ++ [Connect p]) ++ evs) ++ [Commit])
              = None ->
            r = Return a)).
Proof.
  intros Hc Hb.
  destruct (run_with_body_returns a evs Hc Hb) as (r & Hrun & Hr).
  simpl in Hrun, Hr.
  eexists r, _. split; [exact Hrun|].
  destruct (sqlite3_raises Commit _) as [ec|] eqn:Hco.
  - destruct (isinstance_sqlite3_Error ec); simpl;
      repeat split; auto; discriminate.
  - simpl. repeat split; auto.
Qed.

(** C3. When the body raises a [sqlite3.Error] [e], [rollback] and then
    [close] are called before anything reaches the caller; what reaches
    the caller is [e] itself when [rollback] and [close] succeed, and it
    is a [sqlite3.Error] in every case as long as the library raises
    nothing but [sqlite3.Error]. *)
Theorem C3_store_error_propagates_after_rollback
        (e : exn) (evs : list event) :
  sqlite3_raises (Connect p) h = None ->
  body c (h ++ [Connect p]) = (Raise e, evs) ->
  isinstance_sqlite3_Error e = true ->
  exists e' : exn,
    run_with sqlite3_raises m body h
      = (Raise e', ((h ++ [Connect p]) ++ evs) ++ [Rollback; Close])
    /\ (sqlite3_raises Rollback ((h ++ [Connect p]) ++ evs) = None ->
        sqlite3_raises Close (((h ++ [Connect p]) ++ evs) ++ [Rollback])
          = None ->
        e' = e)
    /\ ((forall ev tr x,
           sqlite3_raises ev tr = Some x -> isinstance_sqlite3_Error x = true) ->
        isinstance_sqlite3_Error e' = true).
Proof.
  intros Hc Hb Hi.
  destruct (run_with_body_raises e evs Hc Hb) as (e' & Hrun & He').
  simpl in Hrun, He'. rewrite Hi in Hrun, He'.
  exists e'. split; [exact Hrun|]. split.
  - intros Hr Hcl. destruct He' as [He'|[[_ He']|He']]; congruence.
  - intros Hlib. destruct He' as [->|[[_ He']|He']]; eauto.
Qed.

End ManagerFacts.

Lemma X24_witness :
  exists e' : exn,
    run_with sqlite3_healthy todos_db body_not_found []
      = (Raise e',
         [Connect "/data/todos.db"; Execute "UPDATE todos"; Close])
    /\ e' = Exn HTTPException "Todo not found".
Proof.
  destruct (X24_body_raises_rollback_call_iff_sqlite_error_then_close
              sqlite3_healthy unit todos_db body_not_found []
              (Exn HTTPException "Todo not found")
              [Execute "UPDATE todos"] eq_refl eq_refl)
    as (e' & Hrun & He').
  exists e'. split; [exact Hrun|]. apply He'; reflexivity.
Defined.

Lemma C1_witness :
  exists e' : exn,
    run_with sqlite3_healthy todos_db body_not_found []
      = (Raise e',
         [Connect "/data/todos.db"; Execute "UPDATE todos"; Close])
    /\ effect sqlite3_healthy []
         [Connect "/data/todos.db"; Execute "UPDATE todos"] db_one_row
       = Db ["INSERT INTO todos"] ["UPDATE todos"] true
    /\ effect sqlite3_healthy []
         [Connect "/data/todos.db"; Execute "UPDATE todos"; Close] db_one_row
       = Db ["INSERT INTO todos"] [] false
    /\ e' = Exn HTTPException "Todo not found".
Proof.
  destruct (C1_body_raises_pending_changes_discarded_and_closed
              sqlite3_healthy unit todos_db body_not_found []
              (Exn HTTPException "Todo not found")
              [Execute "UPDATE todos"] db_one_row eq_refl eq_refl eq_refl)
    as (e' & Hrun & _ & He').
  exists e'. split; [exact Hrun|].
  split; [reflexivity|]. split; [reflexivity|].
  apply He'. reflexivity.
Defined.

Lemma C2_witness :
  exists (r : outcome unit) (after : list event),
    run_with sqlite3_healthy todos_db body_insert []
      = (r, [Connect "/data/todos.db"; Execute "INSERT INTO todos"] ++ after)
    /\ after = [Commit; Close] /\ r = Return tt.
Proof.
  destruct (C2_body_returns_commit_once_then_close
              sqlite3_healthy unit todos_db body_insert [] tt
              [Execute "INSERT INTO todos"] eq_refl eq_refl)
    as (r & after & Hrun & _ & _ & _ & _ & Hok).
  destruct (Hok eq_refl) as [Hafter Hr].
  exists r, after. split; [exact Hrun|]. split; [exact Hafter|].
  apply Hr. reflexivity.
Defined.

Lemma sqlite3_rollback_fails_only_sqlite_errors ev tr x :
  sqlite3_rollback_fails ev tr = Some x -> isinstance_sqlite3_Error x = true.
Proof. destruct ev; simpl; intros [= <-]; reflexivity. Qed.

Lemma C3_witness :
  exists e' : exn,
    run_with sqlite3_rollback_fails todos_db body_integrity []
      = (Raise e',
         [Connect "/data/todos.db"; Execute "INSERT INTO todos";
          Rollback; Close])
    /\ isinstance_sqlite3_Error e' = true.
Proof.
  destruct (C3_store_error_propagates_after_rollback
              sqlite3_rollback_fails unit todos_db body_integrity []
              (Exn sqlite3_IntegrityError "NOT NULL constraint failed")
              [Execute "INSERT INTO todos"] eq_refl eq_refl eq_refl)
    as (e' & Hrun & _ & Hlib).
  exists e'. split; [exact Hrun|].
  apply Hlib. exact sqlite3_rollback_fails_only_sqlite_errors.
Defined.

End DatabaseSpec.

(* ===================================================================== *)
(** ** Properties of schemas.py *)
(* ===================================================================== *)

Module SchemasSpec.
Import Schemas Samples.
Local Open Scope list_scope.

(** *** Field validators *)

Lemma check_length_bounds {T} (f : FieldInfo T) (l s : string) (lo hi : nat) :
  min_length f = Some lo -> max_length f = Some hi -> lo <= hi ->
  check_length f l s =
    if (len s <? lo)%nat then [Err l string_too_short]
    else if (hi <? len s)%nat then [Err l string_too_long]
    else [].
Proof.
  intros Hlo Hhi Hle. unfold check_length. rewrite Hlo, Hhi.
  destruct (Nat.ltb_spec (len s) lo);
    destruct (Nat.ltb_spec hi (len s)); simpl; try reflexivity.
  lia.
Qed.

Lemma check_length_max {T} (f : FieldInfo T) (l s : string) (hi : nat) :
  min_length f = None -> max_length f = Some hi ->
  check_length f l s =
    if (hi <? len s)%nat then [Err l string_too_long] else [].
Proof. intros Hlo Hhi. unfold check_length. now rewrite Hlo, Hhi. Qed.

(** [len] counts code points, not bytes: the three bytes of one
    character count once. *)
Lemma len_counts_code_points :
  len "日" = 1 /\ String.length "日" = 3 /\ len (times 200 "日") = 200.
Proof. repeat split; vm_compute; reflexivity. Qed.

Lemma len_EmptyString (s : string) : 1 <= len s -> s <> EmptyString.
Proof. intros H ->. simpl in H. lia. Qed.

(** The title of [TodoBase]: a string passes exactly when its length is
    between 1 and 500. *)
Lemma TodoBase_title_given (s : string) :
  validate_str TodoBase.title_field "title" (Given s) =
    if (len s <? 1)%nat then inl [Err "title" string_too_short]
    else if (500 <? len s)%nat then inl [Err "title" string_too_long]
    else inr s.
Proof.
  simpl.
  rewrite (check_length_bounds TodoBase.title_field "title" s 1 500)
    by (reflexivity || lia).
  destruct (len s <? 1)%nat; [reflexivity|].
  destruct (500 <? len s)%nat; reflexivity.
Qed.

(** The description of either model: a string passes exactly when its
    length is at most 2000. *)
Lemma description_given (f : FieldInfo (option string)) (s : string) :
  min_length f = None -> max_length f = Some 2000 ->
  validate_optional_str f "description" (Given s) =
    if (2000 <? len s)%nat
    then inl [Err "description" string_too_long]
    else inr (Some s).
Proof.
  intros Hlo Hhi. simpl. rewrite (check_length_max f _ s 2000 Hlo Hhi).
  destruct (2000 <? len s)%nat; reflexivity.
Qed.

(** The title of [TodoUpdate]. *)
Lemma TodoUpdate_title_given (s : string) :
  validate_optional_str TodoUpdate.title_field "title" (Given s) =
    if (len s <? 1)%nat then inl [Err "title" string_too_short]
    else if (500 <? len s)%nat then inl [Err "title" string_too_long]
    else inr (Some s).
Proof.
  simpl.
  rewrite (check_length_bounds TodoUpdate.title_field "title" s 1 500)
    by (reflexivity || lia).
  destruct (len s <? 1)%nat; [reflexivity|].
  destruct (500 <? len s)%nat; reflexivity.
Qed.

(** *** Whole models *)

(** A model is accepted exactly when each of its fields is, and a rejected
    one carries the errors of its fields in declaration order. *)
Lemma TodoBase_validate_inr (b : json_body) (t : TodoBase.t) :
  TodoBase.validate b = inr t <->
  validate_str TodoBase.title_field "title" (in_title b)
    = inr (TodoBase.title t)
  /\ validate_optional_str TodoBase.description_field "description"
       (in_description b) = inr (TodoBase.description t)
  /\ validate_bool TodoBase.completed_field "completed" (in_completed b)
     = inr (TodoBase.completed t).
Proof.
  unfold TodoBase.validate.
  destruct (validate_str _ _ _) as [e1|ti];
    destruct (validate_optional_str _ _ _) as [e2|de];
    destruct (validate_bool _ _ _) as [e3|co];
    destruct t as [ti' de' co']; simpl;
    split; try (intros H; discriminate H);
    try (intros (H1 & H2 & H3); discriminate).
  - intros [= -> -> ->]. auto.
  - intros ([= ->] & [= ->] & [= ->]). reflexivity.
Qed.

Lemma TodoBase_validate_errors (b : json_body) :
  errors (TodoBase.validate b) =
    errors (validate_str TodoBase.title_field "title" (in_title b))
    ++ errors (validate_optional_str TodoBase.description_field
                 "description" (in_description b))
    ++ errors (validate_bool TodoBase.completed_field "completed"
                 (in_completed b)).
Proof.
  unfold TodoBase.validate.
  destruct (validate_str _ _ _) as [e1|ti];
    destruct (validate_optional_str _ _ _) as [e2|de];
    destruct (validate_bool _ _ _) as [e3|co]; reflexivity.
Qed.

(** A field that fails makes the whole model fail, with its errors among
    the reported ones. *)
Lemma TodoBase_validate_inl (b : json_body) (e : error_details) :
  e ∈ errors (validate_str TodoBase.title_field "title" (in_title b))
      ++ errors (validate_optional_str TodoBase.description_field
                   "description" (in_description b))
      ++ errors (validate_bool TodoBase.completed_field "completed"
                   (in_completed b)) ->
  exists errs, TodoBase.validate b = inl errs /\ e ∈ errs.
Proof.
  rewrite <- TodoBase_validate_errors.
  destruct (TodoBase.validate b) as [errs|t]; simpl.
  - eauto.
  - intros H. now apply elem_of_nil in H.
Qed.

Lemma TodoUpdate_validate_inr (b : json_body) (u : TodoUpdate.t) :
  TodoUpdate.validate b = inr u <->
  validate_optional_str TodoUpdate.title_field "title" (in_title b)
    = inr (TodoUpdate.title u)
  /\ validate_optional_str TodoUpdate.description_field "description"
       (in_description b) = inr (TodoUpdate.description u)
  /\ validate_optional_bool TodoUpdate.completed_field "completed"
       (in_completed b) = inr (TodoUpdate.completed u).
Proof.
  unfold TodoUpdate.validate.
  destruct (validate_optional_str TodoUpdate.title_field _ _) as [e1|ti];
    destruct (validate_optional_str TodoUpdate.description_field _ _)
      as [e2|de];
    destruct (validate_optional_bool _ _ _) as [e3|co];
    destruct u as [ti' de' co']; simpl;
    split; try (intros H; discriminate H);
    try (intros (H1 & H2 & H3); discriminate).
  - intros [= -> -> ->]. auto.
  - intros ([= ->] & [= ->] & [= ->]). reflexivity.
Qed.

Lemma TodoUpdate_validate_errors (b : json_body) :
  errors (TodoUpdate.validate b) =
    errors (validate_optional_str TodoUpdate.title_field "title" (in_title b))
    ++ errors (validate_optional_str TodoUpdate.description_field
                 "description" (in_description b))
    ++ errors (validate_optional_bool TodoUpdate.completed_field "completed"
                 (in_completed b)).
Proof.
  unfold TodoUpdate.validate.
  destruct (validate_optional_str TodoUpdate.title_field _ _) as [e1|ti];
    destruct (validate_optional_str TodoUpdate.description_field _ _)
      as [e2|de];
    destruct (validate_optional_bool _ _ _) as [e3|co]; reflexivity.
Qed.

Lemma TodoUpdate_validate_inl (b : json_body) (e : error_details) :
  e ∈ errors (validate_optional_str TodoUpdate.title_field "title"
                (in_title b))
      ++ errors (validate_optional_str TodoUpdate.description_field
                   "description" (in_description b))
      ++ errors (validate_optional_bool TodoUpdate.completed_field
                   "completed" (in_completed b)) ->
  exists errs, TodoUpdate.validate b = inl errs /\ e ∈ errs.
Proof.
  rewrite <- TodoUpdate_validate_errors.
  destruct (TodoUpdate.validate b) as [errs|t]; simpl.
  - eauto.
  - intros H. now apply elem_of_nil in H.
Qed.

(** *** Create requests *)

(** C5. In a create request, an empty title and a title of length 501 are
    rejected with a [ValidationError] naming the title; a title of length
    500 passes the title check, and the request is accepted when nothing
    else is supplied; a description longer than 2000 is rejected. *)
Theorem C5_create_title_and_description_bounds (b : json_body) :
  (forall s, in_title b = Given s -> len s = 0 ->
     exists errs, TodoCreate.validate b = inl errs
                  /\ Err "title" string_too_short ∈ errs)
  /\ (forall s, in_title b = Given s -> len s = 501 ->
        exists errs, TodoCreate.validate b = inl errs
                     /\ Err "title" string_too_long ∈ errs)
  /\ (forall s, in_title b = Given s -> len s = 500 ->
        validate_str TodoBase.title_field "title" (in_title b) = inr s
        /\ (in_description b = Missing -> in_completed b = Missing ->
            TodoCreate.validate b
              = inr (TodoBase.Make s (Some EmptyString) false)))
  /\ (forall d, in_description b = Given d -> 2000 < len d ->
        exists errs, TodoCreate.validate b = inl errs
                     /\ Err "description" string_too_long ∈ errs).
Proof.
  unfold TodoCreate.validate. split; [|split; [|split]].
  - intros s Hs Hlen. apply TodoBase_validate_inl.
    rewrite Hs, TodoBase_title_given, Hlen. simpl. set_solver.
  - intros s Hs Hlen. apply TodoBase_validate_inl.
    rewrite Hs, TodoBase_title_given, Hlen.
    change (501 <? 1)%nat with false. change (500 <? 501)%nat with true.
    simpl. set_solver.
  - intros s Hs Hlen. split.
    + rewrite Hs, TodoBase_title_given, Hlen. reflexivity.
    + intros Hd Hc. apply TodoBase_validate_inr. simpl.
      rewrite Hs, TodoBase_title_given, Hlen, Hd, Hc. repeat split.
  - intros d Hd Hlen. apply TodoBase_validate_inl.
    rewrite Hd, (description_given TodoBase.description_field d)
      by reflexivity.
    apply Nat.ltb_lt in Hlen. rewrite Hlen. simpl. set_solver.
Qed.

Lemma length_copies (n : nat) (ch : ascii) : String.length (copies n ch) = n.
Proof. induction n as [|n IH]; simpl; congruence. Qed.

Lemma C5_witness :
  (exists errs, TodoCreate.validate (create_body EmptyString) = inl errs
                /\ Err "title" string_too_short ∈ errs)
  /\ (exists errs,
        TodoCreate.validate (create_body (times 501 "日")) = inl errs
        /\ Err "title" string_too_long ∈ errs)
  /\ TodoCreate.validate (create_body (times 500 "日"))
     = inr (TodoBase.Make (times 500 "日") (Some EmptyString) false)
  /\ (exists errs,
        TodoCreate.validate (create_body_with "Buy milk" (copies 2001 "d"))
          = inl errs
        /\ Err "description" string_too_long ∈ errs).
Proof.
  split; [|split; [|split]].
  - apply (proj1 (C5_create_title_and_description_bounds
                    (create_body EmptyString)) EmptyString);
      reflexivity.
  - apply (proj1 (proj2 (C5_create_title_and_description_bounds
                           (create_body (times 501 "日"))))
             (times 501 "日")); [reflexivity | vm_compute; reflexivity].
  - refine (proj2 (proj1 (proj2 (proj2
              (C5_create_title_and_description_bounds
                 (create_body (times 500 "日")))))
              (times 500 "日") eq_refl _) eq_refl eq_refl).
    vm_compute; reflexivity.
  - apply (proj2 (proj2 (proj2 (C5_create_title_and_description_bounds
                                  (create_body_with "Buy milk"
                                     (copies 2001 "d")))))
             (copies 2001 "d")); [reflexivity | vm_compute; lia].
Defined.

(** C8. In a create request the description may be left out, and is then
    the empty string; a description that is supplied passes exactly when
    its length is at most 2000, and is then stored as given. *)
Theorem C8_create_description_optional_default_empty_max_2000 (b : json_body) :
  (in_description b = Missing ->
     validate_optional_str TodoBase.description_field "description"
       (in_description b) = inr (Some EmptyString)
     /\ (forall t, TodoCreate.validate b = inr t ->
           TodoBase.description t = Some EmptyString))
  /\ (forall d, in_description b = Given d ->
        (validate_optional_str TodoBase.description_field "description"
           (in_description b) = inr (Some d)
         <-> len d <= 2000)
        /\ (forall t, TodoCreate.validate b = inr t ->
              len d <= 2000 /\ TodoBase.description t = Some d)
        /\ (len d <= 2000 ->
            forall ti co,
              validate_str TodoBase.title_field "title" (in_title b) = inr ti ->
              validate_bool TodoBase.completed_field "completed"
                (in_completed b) = inr co ->
              TodoCreate.validate b = inr (TodoBase.Make ti (Some d) co))).
Proof.
  unfold TodoCreate.validate. split.
  - intros Hd. rewrite Hd. split; [reflexivity|].
    intros t Ht. apply TodoBase_validate_inr in Ht as (_ & Ht & _).
    rewrite Hd in Ht.
    cbv [validate_optional_str use_default default
         TodoBase.description_field] in Ht.
    congruence.
  - intros d Hd. rewrite Hd.
    rewrite (description_given TodoBase.description_field d) by reflexivity.
    destruct (Nat.ltb_spec 2000 (len d)) as [Hlen|Hlen].
    + split; [|split].
      * split; [discriminate | lia].
      * intros t Ht. apply TodoBase_validate_inr in Ht as (_ & Ht & _).
        rewrite Hd in Ht.
        rewrite (description_given TodoBase.description_field d) in Ht
          by reflexivity.
        apply Nat.ltb_lt in Hlen. rewrite Hlen in Ht. discriminate.
      * lia.
    + split; [|split].
      * split; [intros _; exact Hlen | reflexivity].
      * intros t Ht. apply TodoBase_validate_inr in Ht as (_ & Ht & _).
        rewrite Hd in Ht.
        rewrite (description_given TodoBase.description_field d) in Ht
          by reflexivity.
        apply Nat.ltb_ge in Hlen. rewrite Hlen in Ht.
        split; [now apply Nat.ltb_ge | congruence].
      * intros _ ti co Hti Hco. apply TodoBase_validate_inr. simpl.
        rewrite Hti, Hco, Hd.
        rewrite (description_given TodoBase.description_field d)
          by reflexivity.
        apply Nat.ltb_ge in Hlen. rewrite Hlen. auto.
Qed.

Lemma C8_witness :
  TodoCreate.validate (create_body "Buy milk")
    = inr (TodoBase.Make "Buy milk" (Some EmptyString) false)
  /\ TodoBase.description (TodoBase.Make "Buy milk" (Some EmptyString) false)
     = Some EmptyString
  /\ TodoCreate.validate (create_body_with "Buy milk" (times 700 "日"))
     = inr (TodoBase.Make "Buy milk" (Some (times 700 "日")) false).
Proof.
  split; [reflexivity|]. split.
  - apply (proj2 (proj1 (C8_create_description_optional_default_empty_max_2000
                           (create_body "Buy milk")) eq_refl)).
    reflexivity.
  - apply (proj2 (proj2 (proj2
             (C8_create_description_optional_default_empty_max_2000
                (create_body_with "Buy milk" (times 700 "日")))
             (times 700 "日") eq_refl))).
    + vm_compute. lia.
    + reflexivity.
    + reflexivity.
Defined.

(** *** Update requests *)

(** C9. An update body that supplies no field is accepted: each field of
    [TodoUpdate] falls back to [None] and no error is reported. *)
Theorem C9_empty_update_passes_validation :
  TodoUpdate.validate update_nothing
    = inr (TodoUpdate.Make None None None)
  /\ errors (TodoUpdate.validate update_nothing) = [].
Proof. split; reflexivity. Qed.

(** C10. In an update, the empty string is accepted as a description (it
    has only an upper bound) and rejected as a title (which needs at least
    one character). *)
Theorem C10_update_empty_description_accepted_empty_title_rejected
        (b : json_body) :
  (in_description b = Given EmptyString ->
     validate_optional_str TodoUpdate.description_field "description"
       (in_description b) = inr (Some EmptyString)
     /\ (forall ti co,
           validate_optional_str TodoUpdate.title_field "title" (in_title b)
             = inr ti ->
           validate_optional_bool TodoUpdate.completed_field "completed"
             (in_completed b) = inr co ->
           TodoUpdate.validate b
             = inr (TodoUpdate.Make ti (Some EmptyString) co)))
  /\ (in_title b = Given EmptyString ->
        validate_optional_str TodoUpdate.title_field "title" (in_title b)
          = inl [Err "title" string_too_short]
        /\ exists errs, TodoUpdate.validate b = inl errs
                        /\ Err "title" string_too_short ∈ errs).
Proof.
  split.
  - intros Hd. rewrite Hd. split; [reflexivity|].
    intros ti co Hti Hco. apply TodoUpdate_validate_inr. simpl.
    rewrite Hti, Hco, Hd. auto.
  - intros Ht. split.
    + rewrite Ht. reflexivity.
    + apply TodoUpdate_validate_inl. rewrite Ht. simpl. set_solver.
Qed.

Lemma C10_witness :
  TodoUpdate.validate update_clear_description
    = inr (TodoUpdate.Make None (Some EmptyString) None)
  /\ exists errs, TodoUpdate.validate update_clear_title = inl errs
                  /\ Err "title" string_too_short ∈ errs.
Proof.
  split.
  - apply (proj2 (proj1
             (C10_update_empty_description_accepted_empty_title_rejected
                update_clear_description) eq_refl)); reflexivity.
  - apply (proj2 (proj2
             (C10_update_empty_description_accepted_empty_title_rejected
                update_clear_title) eq_refl)).
Defined.

(** *** Titles of accepted models *)

Lemma TodoCreate_title_length (b : json_body) (c : TodoCreate.t) :
  TodoCreate.validate b = inr c ->
  1 <= len (TodoBase.title c) <= 500.
Proof.
  intros H. apply TodoBase_validate_inr in H as (Ht & _ & _).
  destruct (in_title b) as [| |s]; try discriminate Ht.
  rewrite TodoBase_title_given in Ht.
  destruct (Nat.ltb_spec (len s) 1); [discriminate|].
  destruct (Nat.ltb_spec 500 (len s)); [discriminate|].
  injection Ht as <-. lia.
Qed.

Lemma TodoUpdate_title_length (b : json_body) (u : TodoUpdate.t) (x : string) :
  TodoUpdate.validate b = inr u ->
  TodoUpdate.title u = Some x ->
  1 <= len x <= 500.
Proof.
  intros H Hx. apply TodoUpdate_validate_inr in H as (Ht & _ & _).
  rewrite Hx in Ht.
  destruct (in_title b) as [| |s]; try discriminate Ht.
  rewrite TodoUpdate_title_given in Ht.
  destruct (Nat.ltb_spec (len s) 1); [discriminate|].
  destruct (Nat.ltb_spec 500 (len s)); [discriminate|].
  injection Ht as <-. lia.
Qed.

(** What an accepted update holds for each field of the body. *)
Lemma TodoUpdate_fields (b : json_body) (u : TodoUpdate.t) :
  TodoUpdate.validate b = inr u ->
  TodoUpdate.title u
    = match in_title b with Given s => Some s | _ => None end
  /\ TodoUpdate.description u
     = match in_description b with Given s => Some s | _ => None end
  /\ TodoUpdate.completed u
     = match in_completed b with Given x => Some x | _ => None end.
Proof.
  intros H. apply TodoUpdate_validate_inr in H as (Ht & Hd & Hc).
  repeat split.
  - destruct (in_title b) as [| |s]; try (injection Ht as <-; reflexivity).
    simpl in Ht. destruct (check_length _ _ _); [|discriminate].
    now injection Ht as <-.
  - destruct (in_description b) as [| |s];
      try (injection Hd as <-; reflexivity).
    simpl in Hd. destruct (check_length _ _ _); [|discriminate].
    now injection Hd as <-.
  - destruct (in_completed b) as [| |x]; now injection Hc as <-.
Qed.

End SchemasSpec.

(* ===================================================================== *)
(** ** Properties of the repository operations *)
(* ===================================================================== *)

Module RoutesSpec.
Import Schemas Routes Samples SchemasSpec.

(** *** The title invariant *)

Lemma all_todos_insert (P : Todo -> Prop) (st : store) (i n : Z) (todo : Todo) :
  all_todos P st -> P todo ->
  all_todos P (Store (<[i := todo]> (rows st)) n).
Proof.
  intros Hall Hnew j t. simpl. rewrite lookup_insert.
  case_decide; [intros [= <-]; exact Hnew | apply Hall].
Qed.

Lemma all_todos_delete (P : Todo -> Prop) (st : store) (i n : Z) :
  all_todos P st -> all_todos P (Store (delete i (rows st)) n).
Proof.
  intros Hall j t. simpl. rewrite lookup_delete.
  case_decide; [discriminate | apply Hall].
Qed.

Lemma handle_title_in_bounds (st : store) (r : request) :
  all_todos title_in_bounds st ->
  all_todos title_in_bounds (snd (handle st r)).
Proof.
  intros Hall. destruct r as [b now|i b now|i ci now|i]; simpl.
  - destruct (TodoCreate.validate b) as [errs|c] eqn:Hv; [exact Hall|].
    simpl. apply all_todos_insert; [exact Hall|].
    exact (TodoCreate_title_length b c Hv).
  - destruct (TodoUpdate.validate b) as [errs|u] eqn:Hv; [exact Hall|].
    unfold update. destruct (rows st !! i) as [old|] eqn:Hi; [|exact Hall].
    simpl. apply all_todos_insert; [exact Hall|].
    unfold title_in_bounds. simpl.
    destruct (TodoUpdate.title u) as [x|] eqn:Hx.
    + exact (TodoUpdate_title_length b u x Hv Hx).
    + exact (Hall i old Hi).
  - destruct (TodoComplete.validate ci) as [errs|c]; [exact Hall|].
    unfold set_completed.
    destruct (rows st !! i) as [old|] eqn:Hi; [|exact Hall].
    simpl. apply all_todos_insert; [exact Hall|].
    exact (Hall i old Hi).
  - unfold delete_todo. destruct (rows st !! i) as [old|]; [|exact Hall].
    simpl. apply all_todos_delete. exact Hall.
Qed.

Lemma foldl_handle_title_in_bounds (rs : list request) (st : store) :
  all_todos title_in_bounds st ->
  all_todos title_in_bounds (foldl (fun st r => snd (handle st r)) st rs).
Proof.
  revert st. induction rs as [|r rs IH]; intros st Hall; simpl.
  - exact Hall.
  - apply IH. now apply handle_title_in_bounds.
Qed.

(** C6 (as amended). After any sequence of create, update, set-completed
    and delete requests, every Todo in the store has a title of length 1
    to 500; in particular no stored title is empty. *)
Theorem C6_stored_titles_are_never_empty (rs : list request) :
  all_todos
    (fun todo => title_in_bounds todo
                 /\ TodoResponse.title todo <> EmptyString)
    (serve rs).
Proof.
  intros i todo Hi.
  assert (Hb : title_in_bounds todo).
  { apply (foldl_handle_title_in_bounds rs empty_store) with (i := i);
      [|exact Hi].
    intros j t. simpl. rewrite lookup_empty. discriminate. }
  split; [exact Hb|].
  intros Hempty. unfold title_in_bounds in Hb. rewrite Hempty in Hb.
  simpl in Hb. lia.
Qed.

Lemma C6_witness :
  title_in_bounds
    (TodoResponse.Make "Buy milk" (Some "2 litres") false 1
       "2024-05-01 10:00:00" "2024-05-01 10:00:00")
  /\ "Buy milk" <> EmptyString.
Proof.
  apply (C6_stored_titles_are_never_empty
           [POST_todos (create_body_with "Buy milk" "2 litres")
              "2024-05-01 10:00:00"]
           1%Z
           (TodoResponse.Make "Buy milk" (Some "2 litres") false 1
              "2024-05-01 10:00:00" "2024-05-01 10:00:00")).
  reflexivity.
Defined.

(** C6 as stated fails: a create request whose title is a single space
    passes validation, and the Todo it stores has a title that consists of
    whitespace only. *)
Lemma C6_counterexample_whitespace_only_title :
  TodoCreate.validate (create_body " ")
    = inr (TodoBase.Make " " (Some EmptyString) false)
  /\ TodoUpdate.validate (Body (Given " ") Missing Missing)
     = inr (TodoUpdate.Make (Some " ") None None)
  /\ rows blank_todo !! 1%Z
     = Some (TodoResponse.Make " " (Some EmptyString) false 1
               "2024-05-01 10:00:00" "2024-05-01 10:00:00")
  /\ isspace " " = true.
Proof. repeat split. Qed.

(** *** Partial update *)

(** C7. An update of an existing Todo replaces the row under the same id
    and touches no other row; in the new row [id] and [created_at] are
    the old ones, [updated_at] is the time of the request, and each of
    title, description and completed is the supplied value if the body
    supplies one and the old value otherwise. *)
Theorem C7_update_changes_only_supplied_fields
        (st : store) (i : Z) (old : Todo) (b : json_body)
        (u : TodoUpdate.t) (now : string) :
  rows st !! i = Some old ->
  TodoUpdate.validate b = inr u ->
  exists (todo : Todo) (st' : store),
    handle st (PATCH_todo i b now) = (inr (Some todo), st')
    /\ update i u now st = inr (todo, st')
    /\ rows st' !! i = Some todo
    /\ (forall j, j <> i -> rows st' !! j = rows st !! j)
    /\ last_id st' = last_id st
    /\ TodoResponse.id todo = TodoResponse.id old
    /\ TodoResponse.created_at todo = TodoResponse.created_at old
    /\ TodoResponse.updated_at todo = now
    /\ TodoResponse.title todo
       = match in_title b with
         | Given s => s
         | _ => TodoResponse.title old
         end
    /\ TodoResponse.description todo
       = match in_description b with
         | Given s => Some s
         | _ => TodoResponse.description old
         end
    /\ TodoResponse.completed todo
       = match in_completed b with
         | Given x => x
         | _ => TodoResponse.completed old
         end.
Proof.
  intros Hi Hv.
  destruct (TodoUpdate_fields b u Hv) as (Ht & Hd & Hc).
  unfold handle. rewrite Hv. unfold update, Todo in *. rewrite Hi.
  eexists _, _. split; [reflexivity|]. split; [reflexivity|]. simpl.
  split; [apply lookup_insert_eq|].
  split; [intros j Hj; now apply lookup_insert_ne|].
  rewrite Ht, Hd, Hc.
  repeat split.
  - destruct (in_title b); reflexivity.
  - destruct (in_description b); reflexivity.
  - destruct (in_completed b); reflexivity.
Qed.

Lemma C7_witness :
  exists (todo : Todo) (st' : store),
    handle one_todo (PATCH_todo 1 update_completed_only "2024-05-02 09:30:00")
      = (inr (Some todo), st')
    /\ TodoResponse.title todo = "Buy milk"
    /\ TodoResponse.description todo = Some "2 litres"
    /\ TodoResponse.completed todo = true
    /\ TodoResponse.updated_at todo = "2024-05-02 09:30:00".
Proof.
  destruct (C7_update_changes_only_supplied_fields
              one_todo 1
              (TodoResponse.Make "Buy milk" (Some "2 litres") false 1
                 "2024-05-01 10:00:00" "2024-05-01 10:00:00")
              update_completed_only
              (TodoUpdate.Make None None (Some true))
              "2024-05-02 09:30:00" eq_refl eq_refl)
    as (todo & st' & Hh & _ & _ & _ & _ & _ & _ & Hu & Ht & Hd & Hc).
  exists todo, st'. repeat split; assumption.
Defined.

End RoutesSpec.

(* ===================================================================== *)
(** ** Further properties of database.py *)
(* ===================================================================== *)

Module DatabaseMore.
Import Py Database Samples DatabaseSpec.
Local Open Scope list_scope.

(** *** The connection manager *)

Section ManagerMore.
Variable sqlite3_raises : event -> list event -> option exn.
Variable A : Type.
Variable m : module.
Variable body : with_body A.
Variable h : list event.

Let p : string := SQLITE_DB_PATH m.
Let c : Connection := Conn p (Some sqlite3_Row).

(** The calls of the manager after the body, in every case in which the
    connection was opened. *)
Lemma run_with_connected :
  sqlite3_raises (Connect p) h = None ->
  let h2 := (h ++ [Connect p]) ++ snd (body c (h ++ [Connect p])) in
  exists (r : outcome A) (after : list event),
    run_with sqlite3_raises m body h = (r, h2 ++ after)
    /\ (after = [Close] \/ after = [Rollback; Close]
        \/ after = [Commit; Close] \/ after = [Commit; Rollback; Close])
    /\ (forall a, r = Return a ->
        after = [Commit; Close] /\ fst (body c (h ++ [Connect p])) = Return a)
    /\ (head after = Some Commit ->
        exists a, fst (body c (h ++ [Connect p])) = Return a).
Proof.
  intros Hc. simpl. run_manager. fold p. rewrite Hc. simpl. fold c.
  destruct (body c (h ++ [Connect p])) as [[a|e] evs] eqn:Hb; simpl.
  - destruct (sqlite3_raises Commit _) as [ec|] eqn:Hco; simpl.
    + destruct (isinstance_sqlite3_Error ec); simpl.
      * destruct (sqlite3_raises Rollback _); simpl;
          destruct (sqlite3_raises Close _); simpl;
          eexists _, [Commit; Rollback; Close];
          (split; [rewrite <- ?(assoc_L (++)); simpl; reflexivity|]);
          (split; [auto|]); (split; [intros ? [=] | eauto]).
      * destruct (sqlite3_raises Close _); simpl;
          eexists _, [Commit; Close];
          (split; [rewrite <- ?(assoc_L (++)); simpl; reflexivity|]);
          (split; [auto|]); (split; [intros ? [=] | eauto]).
    + destruct (sqlite3_raises Close _); simpl;
        eexists _, [Commit; Close];
        (split; [rewrite <- ?(assoc_L (++)); simpl; reflexivity|]);
        (split; [auto|]); (split; [|eauto]).
      * intros ? [=].
      * intros ? [= <-]. auto.
  - destruct (isinstance_sqlite3_Error e); simpl.
    + destruct (sqlite3_raises Rollback _); simpl;
        destruct (sqlite3_raises Close _); simpl;
        eexists _, [Rollback; Close];
        (split; [rewrite <- ?(assoc_L (++)); simpl; reflexivity|]);
        (split; [auto|]); (split; [intros ? [=] | intros [=]]).
    + destruct (sqlite3_raises Close _); simpl;
        eexists _, [Close];
        (split; [rewrite <- ?(assoc_L (++)); simpl; reflexivity|]);
        (split; [auto|]); (split; [intros ? [=] | intros [=]]).
Qed.

(** X1. When [sqlite3.connect] raises, that exception reaches the caller
    unchanged; the body does not run and the manager makes no further
    call: no [rollback] and no [close]. *)
Theorem X1_connect_failure_reaches_caller_without_cleanup (e : exn) :
  sqlite3_raises (Connect p) h = Some e ->
  run_with sqlite3_raises m body h = (Raise e, h ++ [Connect p]).
Proof. apply run_with_connect_raises. Qed.

(** X2. When the body returns but [commit] raises, the [with] statement
    raises although the body succeeded: [rollback] follows if the error is
    a [sqlite3.Error], [close] is called, and the error of [commit] is the
    one that reaches the caller unless [rollback] or [close] raise in
    turn. *)
Theorem X2_commit_failure_raises_after_cleanup
        (a : A) (evs : list event) (ec : exn) :
  sqlite3_raises (Connect p) h = None ->
  body c (h ++ [Connect p]) = (Return a, evs) ->
  sqlite3_raises Commit ((h ++ [Connect p]) ++ evs) = Some ec ->
  let undo := if isinstance_sqlite3_Error ec then [Rollback] else [] in
  exists e' : exn,
    run_with sqlite3_raises m body h
      = (Raise e', ((h ++ [Connect p]) ++ evs) ++ Commit :: undo ++ [Close])
    /\ (sqlite3_raises Rollback (((h ++ [Connect p]) ++ evs) ++ [Commit])
          = None ->
        sqlite3_raises Close
          ((((h ++ [Connect p]) ++ evs) ++ [Commit]) ++ undo) = None ->
        e' = ec).
Proof.
  intros Hc Hb Hco. run_manager. fold p. rewrite Hc. simpl. fold c.
  rewrite Hb. simpl. rewrite Hco. simpl.
  destruct (isinstance_sqlite3_Error ec) eqn:Hi; simpl.
  - destruct (sqlite3_raises Rollback _) as [er|] eqn:Hr; simpl;
      rewrite <- ?(assoc_L (++)); simpl;
      destruct (sqlite3_raises Close _) as [ecl|] eqn:Hcl; simpl;
      eexists; (split; [reflexivity|]); intros Hr' Hcl';
      rewrite <- ?(assoc_L (++)) in *; simpl in *; congruence.
  - rewrite ?app_nil_r.
    destruct (sqlite3_raises Close _) as [ecl|] eqn:Hcl; simpl;
      rewrite <- ?(assoc_L (++)); simpl;
      eexists; (split; [reflexivity|]); intros Hr' Hcl';
      rewrite <- ?(assoc_L (++)) in *; simpl in *; congruence.
Qed.

(** X3. The [with] statement ends normally exactly when the connection is
    opened, the body returns, and neither [commit] nor [close] raises; its
    value is then the body's and the manager's calls are [connect] before
    the body and [commit; close] after it. *)
Theorem X3_normal_exit_iff_nothing_raised (a : A) (tr : list event) :
  run_with sqlite3_raises m body h = (Return a, tr)
  <->
  sqlite3_raises (Connect p) h = None
  /\ exists evs : list event,
       body c (h ++ [Connect p]) = (Return a, evs)
       /\ sqlite3_raises Commit ((h ++ [Connect p]) ++ evs) = None
       /\ sqlite3_raises Close (((h ++ [Connect p]) ++ evs) ++ [Commit])
          = None
       /\ tr = ((h ++ [Connect p]) ++ evs) ++ [Commit; Close].
Proof.
  split.
  - destruct (sqlite3_raises (Connect p) h) as [e|] eqn:Hc.
    { rewrite (run_with_connect_raises sqlite3_raises A m body h e Hc).
      discriminate. }
    intros Hrun. split; [reflexivity|].
    destruct (body c (h ++ [Connect p])) as [[a'|e] evs] eqn:Hb.
    + exists evs. revert Hrun. run_manager. fold p. rewrite Hc. simpl.
      fold c. rewrite Hb. simpl.
      destruct (sqlite3_raises Commit _) as [ec|] eqn:Hco; simpl.
      * destruct (isinstance_sqlite3_Error ec); simpl;
          repeat (match goal with
                  | |- context [sqlite3_raises ?ev ?t] =>
                      destruct (sqlite3_raises ev t); simpl
                  end); discriminate.
      * destruct (sqlite3_raises Close _) as [ecl|] eqn:Hcl; simpl;
          [discriminate|].
        intros [= -> <-]. rewrite <- ?(assoc_L (++)) in *. simpl in *.
        auto.
    + destruct (run_with_body_raises sqlite3_raises A m body h e evs Hc Hb)
        as (e' & Hrun' & _).
      simpl in Hrun'. rewrite Hrun' in Hrun. discriminate.
  - intros (Hc & evs & Hb & Hco & Hcl & ->).
    run_manager. fold p. rewrite Hc. simpl. fold c. rewrite Hb. simpl.
    rewrite Hco. simpl. rewrite Hcl. simpl.
    rewrite <- ?(assoc_L (++)). reflexivity.
Qed.

(** X4. Once the connection is opened, whatever the body and the library
    do, the manager calls [close] exactly once and as its last call. *)
Theorem X4_opened_connection_is_closed_once_and_last :
  sqlite3_raises (Connect p) h = None ->
  exists (r : outcome A) (after : list event),
    run_with sqlite3_raises m body h
      = (r, ((h ++ [Connect p]) ++ snd (body c (h ++ [Connect p]))) ++ after)
    /\ count_occ event_eq_dec after Close = 1
    /\ last after = Some Close.
Proof.
  intros Hc. destruct (run_with_connected Hc) as (r & after & Hrun & Hs & _).
  exists r, after. split; [exact Hrun|].
  destruct Hs as [->|[->|[->| ->]]]; split; reflexivity.
Qed.

(** X5. [commit] is called only after a body that returned: when the body
    raises, whatever its exception, the manager does not commit. *)
Theorem X5_no_commit_after_a_body_that_raised (e : exn) (evs : list event) :
  sqlite3_raises (Connect p) h = None ->
  body c (h ++ [Connect p]) = (Raise e, evs) ->
  exists (e' : exn) (after : list event),
    run_with sqlite3_raises m body h
      = (Raise e', ((h ++ [Connect p]) ++ evs) ++ after)
    /\ Commit ∉ after.
Proof.
  intros Hc Hb.
  destruct (run_with_body_raises sqlite3_raises A m body h e evs Hc Hb)
    as (e' & Hrun & _).
  simpl in Hrun. exists e'. eexists. split; [exact Hrun|].
  destruct (isinstance_sqlite3_Error e); simpl; intros H;
    repeat (apply elem_of_cons in H as [H|H]; [discriminate H|]);
    now apply elem_of_nil in H.
Qed.

End ManagerMore.

Lemma X1_witness :
  run_with sqlite3_unreachable todos_db body_insert []
    = (Raise (Exn sqlite3_OperationalError "unable to open database file"),
       [Connect "/data/todos.db"]).
Proof.
  apply (X1_connect_failure_reaches_caller_without_cleanup
           sqlite3_unreachable unit todos_db body_insert []).
  reflexivity.
Defined.

Lemma X2_witness :
  exists e' : exn,
    run_with sqlite3_commit_fails todos_db body_insert []
      = (Raise e',
         [Connect "/data/todos.db"; Execute "INSERT INTO todos";
          Commit; Rollback; Close])
    /\ e' = Exn sqlite3_OperationalError "database is locked".
Proof.
  destruct (X2_commit_failure_raises_after_cleanup
              sqlite3_commit_fails unit todos_db body_insert [] tt
              [Execute "INSERT INTO todos"]
              (Exn sqlite3_OperationalError "database is locked")
              eq_refl eq_refl eq_refl) as (e' & Hrun & He').
  exists e'. split; [exact Hrun|]. apply He'; reflexivity.
Defined.

Lemma X3_witness :
  sqlite3_healthy (Connect "/data/todos.db") [] = None
  /\ exists evs : list event,
       body_insert (Conn "/data/todos.db" (Some sqlite3_Row))
                   [Connect "/data/todos.db"] = (Return tt, evs)
       /\ sqlite3_healthy Commit ([Connect "/data/todos.db"] ++ evs) = None
       /\ sqlite3_healthy Close
            (([Connect "/data/todos.db"] ++ evs) ++ [Commit]) = None
       /\ [Connect "/data/todos.db"; Execute "INSERT INTO todos";
           Commit; Close]
          = ([Connect "/data/todos.db"] ++ evs) ++ [Commit; Close].
Proof.
  apply (proj1 (X3_normal_exit_iff_nothing_raised
                  sqlite3_healthy unit todos_db body_insert [] tt
                  [Connect "/data/todos.db"; Execute "INSERT INTO todos";
                   Commit; Close])).
  reflexivity.
Defined.

Lemma X4_witness :
  exists (r : outcome unit) (after : list event),
    run_with sqlite3_rollback_fails todos_db body_integrity []
      = (r, [Connect "/data/todos.db"; Execute "INSERT INTO todos"] ++ after)
    /\ count_occ event_eq_dec after Close = 1
    /\ last after = Some Close.
Proof.
  apply (X4_opened_connection_is_closed_once_and_last
           sqlite3_rollback_fails unit todos_db body_integrity []).
  reflexivity.
Defined.

Lemma X5_witness :
  exists (e' : exn) (after : list event),
    run_with sqlite3_healthy todos_db body_not_found []
      = (Raise e',
         [Connect "/data/todos.db"; Execute "UPDATE todos"] ++ after)
    /\ Commit ∉ after.
Proof.
  apply (X5_no_commit_after_a_body_that_raised
           sqlite3_healthy unit todos_db body_not_found []
           (Exn HTTPException "Todo not found") [Execute "UPDATE todos"]);
    reflexivity.
Defined.

(** *** Startup configuration *)

Lemma getenv_after_load_dotenv (os : os_state) (name : string) :
  os_getenv (load_dotenv os) name
  = match environ os !! name with
    | Some v => Some v
    | None => dotenv_values os !! name
    end.
Proof.
  unfold os_getenv, load_dotenv. simpl.
  destruct (environ os !! name) as [v|] eqn:He.
  - now apply lookup_union_Some_l.
  - now apply lookup_union_r.
Qed.

(** X6. The import succeeds, with the configured path, whenever
    [SQLITE_DB] is set to a non-empty path that exists. *)
Theorem X6_import_succeeds_when_configured (os : os_state) (p : string) :
  os_getenv (load_dotenv os) "SQLITE_DB" = Some p ->
  p <> EmptyString ->
  path_exists os p = true ->
  import_module os = inr (Module_ p).
Proof.
  intros Hp Hne He. unfold import_module. rewrite Hp.
  destruct p as [|ch rest]; [congruence|]. simpl.
  simpl in He. now rewrite He.
Qed.

Lemma X6_witness : import_module os_ready = inr (Module_ "/data/todos.db").
Proof.
  apply X6_import_succeeds_when_configured;
    [reflexivity | discriminate | reflexivity].
Defined.

(** X7. A value of [SQLITE_DB] in the process environment takes
    precedence over the [.env] file: the outcome of the import is the
    same whatever the file holds. This includes a variable set to the
    empty string, which makes the import fail even if the file names a
    valid path. *)
Theorem X7_environment_takes_precedence_over_dotenv
        (os : os_state) (v : string) (file : gmap string string) :
  environ os !! "SQLITE_DB" = Some v ->
  import_module (OsState (environ os) file (path_exists os))
  = import_module os
  /\ (v = EmptyString -> exists msg, import_module os = inl (Exn ValueError msg)).
Proof.
  intros Hv. split.
  - unfold import_module. rewrite !getenv_after_load_dotenv. simpl.
    rewrite Hv. reflexivity.
  - intros ->. apply import_module_unset.
    rewrite getenv_after_load_dotenv, Hv. reflexivity.
Qed.

Lemma X7_witness :
  import_module (OsState (environ os_empty_in_environ) ∅
                         (path_exists os_empty_in_environ))
  = import_module os_empty_in_environ
  /\ exists msg, import_module os_empty_in_environ = inl (Exn ValueError msg).
Proof.
  destruct (X7_environment_takes_precedence_over_dotenv
              os_empty_in_environ EmptyString ∅ eq_refl) as [H1 H2].
  split; [exact H1 | exact (H2 eq_refl)].
Defined.

(** X8. When the process environment does not set [SQLITE_DB], the value
    of the [.env] file is the one that is checked and used. *)
Theorem X8_dotenv_supplies_the_path_when_environment_is_silent
        (os : os_state) (p : string) :
  environ os !! "SQLITE_DB" = None ->
  dotenv_values os !! "SQLITE_DB" = Some p ->
  p <> EmptyString ->
  import_module os
  = if path_exists os p then inr (Module_ p)
    else inl (Exn FileNotFoundError
                ("SQLite database file not found at " ++ p
                 ++ ". Please ensure the database is initialized.")%string).
Proof.
  intros He Hd Hne. unfold import_module.
  rewrite getenv_after_load_dotenv, He, Hd.
  destruct p as [|ch rest]; [congruence|]. simpl.
  destruct (path_exists os (String ch rest)); reflexivity.
Qed.

Lemma X8_witness :
  import_module os_no_file
  = inl (Exn FileNotFoundError
           "SQLite database file not found at /data/todos.db. Please ensure the database is initialized.").
Proof.
  apply (X8_dotenv_supplies_the_path_when_environment_is_silent
           os_no_file "/data/todos.db");
    [reflexivity | reflexivity | discriminate].
Defined.

End DatabaseMore.

(* ===================================================================== *)
(** ** Further properties of schemas.py *)
(* ===================================================================== *)

Module SchemasMore.
Import Schemas Samples SchemasSpec.
Local Open Scope list_scope.

(** *** Field by field *)

Lemma TodoBase_title_inr (i : input string) (s : string) :
  validate_str TodoBase.title_field "title" i = inr s <->
  i = Given s /\ 1 <= len s <= 500.
Proof.
  destruct i as [| |s']; try (split; [discriminate | intros [[=] _]]).
  rewrite TodoBase_title_given.
  destruct (Nat.ltb_spec (len s') 1);
    [split; [discriminate | intros [[= ->] ?]; lia]|].
  destruct (Nat.ltb_spec 500 (len s'));
    [split; [discriminate | intros [[= ->] ?]; lia]|].
  split; [intros [= ->]; split; [reflexivity | lia] | intros [[= ->] _]; reflexivity].
Qed.

Lemma TodoUpdate_title_inr (i : input string) (v : option string) :
  validate_optional_str TodoUpdate.title_field "title" i = inr v <->
  match i with
  | Given s => v = Some s /\ 1 <= len s <= 500
  | _ => v = None
  end.
Proof.
  destruct i as [| |s];
    [cbv [validate_optional_str use_default default TodoUpdate.title_field];
     split; congruence ..|].
  rewrite TodoUpdate_title_given.
  destruct (Nat.ltb_spec (len s) 1);
    [split; [discriminate | intros [_ ?]; lia]|].
  destruct (Nat.ltb_spec 500 (len s));
    [split; [discriminate | intros [_ ?]; lia]|].
  split; [intros [= <-]; split; [reflexivity | lia] | intros [-> _]; reflexivity].
Qed.

Lemma description_inr (f : FieldInfo (option string)) (dflt : option string)
      (i : input string) (v : option string) :
  default f = Some dflt -> min_length f = None -> max_length f = Some 2000 ->
  validate_optional_str f "description" i = inr v <->
  match i with
  | Missing => v = dflt
  | Null => v = None
  | Given d => v = Some d /\ len d <= 2000
  end.
Proof.
  intros Hd Hlo Hhi. destruct i as [| |d].
  - simpl. unfold use_default. rewrite Hd. split; congruence.
  - simpl. split; congruence.
  - rewrite (description_given f d Hlo Hhi).
    destruct (Nat.ltb_spec 2000 (len d)).
    + split; [discriminate | intros [_ ?]; lia].
    + split; [intros [= <-]; auto | intros [-> _]; reflexivity].
Qed.






(** *** Request models *)

Lemma TodoCreate_accepted_iff (b : json_body) (c : TodoCreate.t) :
  TodoCreate.validate b = inr c
  <->
  (in_title b = Given (TodoBase.title c)
   /\ 1 <= len (TodoBase.title c) <= 500)
  /\ match in_description b with
     | Missing => TodoBase.description c = Some EmptyString
     | Null => TodoBase.description c = None
     | Given d => TodoBase.description c = Some d /\ len d <= 2000
     end
  /\ match in_completed b with
     | Missing => TodoBase.completed c = false
     | Null => False
     | Given x => TodoBase.completed c = x
     end.
Proof.
  unfold TodoCreate.validate. rewrite TodoBase_validate_inr.
  rewrite TodoBase_title_inr.
  rewrite (description_inr TodoBase.description_field (Some EmptyString))
    by reflexivity.
  assert (Hc : validate_bool TodoBase.completed_field "completed"
                 (in_completed b) = inr (TodoBase.completed c)
               <-> match in_completed b with
                   | Missing => TodoBase.completed c = false
                   | Null => False
                   | Given x => TodoBase.completed c = x
                   end).
  { destruct (in_completed b) as [| |x]; simpl.
    - cbv [use_default default TodoBase.completed_field]. split; congruence.
    - split; [discriminate | tauto].
    - split; congruence. }
  rewrite Hc. reflexivity.
Qed.

(** X9. A create body is accepted whenever its title is a string of 1 to
    500 characters, its description is absent, [null] or a string of at
    most 2000 characters, and its completed flag is absent or a boolean;
    the model then holds the title as given, the description as given
    ([None] for [null], the empty string when absent) and the flag as
    given ([False] when absent). Conversely, an accepted body always has
    such a title and such a description. *)
Theorem X9_create_body_acceptance (b : json_body) :
  (forall s : string,
     in_title b = Given s ->
     1 <= len s <= 500 ->
     (forall d, in_description b = Given d -> len d <= 2000) ->
     in_completed b <> Null ->
     TodoCreate.validate b
     = inr (TodoBase.Make
              s
              (match in_description b with
               | Missing => Some EmptyString
               | Null => None
               | Given d => Some d
               end)
              (match in_completed b with
               | Given x => x
               | _ => false
               end)))
  /\ (forall c : TodoCreate.t,
        TodoCreate.validate b = inr c ->
        in_title b = Given (TodoBase.title c)
        /\ 1 <= len (TodoBase.title c) <= 500
        /\ match in_description b with
           | Missing => TodoBase.description c = Some EmptyString
           | Null => TodoBase.description c = None
           | Given d => TodoBase.description c = Some d /\ len d <= 2000
           end).
Proof.
  split.
  - intros s Ht Hlen Hd Hc. apply TodoCreate_accepted_iff. simpl.
    split; [auto|]. split.
    + destruct (in_description b) as [| |d]; auto.
    + destruct (in_completed b) as [| |x]; [reflexivity | congruence | reflexivity].
  - intros c Hv. apply TodoCreate_accepted_iff in Hv as ((Ht & Hlen) & Hd & _).
    auto.
Qed.

Lemma X9_witness :
  TodoCreate.validate (create_body_with (times 200 "日") "2 litres")
  = inr (TodoBase.Make (times 200 "日") (Some "2 litres") false)
  /\ in_title (create_body "Buy milk") = Given "Buy milk".
Proof.
  split.
  - apply (proj1 (X9_create_body_acceptance
                    (create_body_with (times 200 "日") "2 litres"))
             (times 200 "日") eq_refl).
    + vm_compute. lia.
    + intros d [= <-]. vm_compute. lia.
    + discriminate.
  - apply (proj2 (X9_create_body_acceptance (create_body "Buy milk"))
             (TodoBase.Make "Buy milk" (Some EmptyString) false)).
    reflexivity.
Defined.

Lemma TodoUpdate_accepted_iff (b : json_body) (u : TodoUpdate.t) :
  TodoUpdate.validate b = inr u
  <->
  match in_title b with
  | Given s => TodoUpdate.title u = Some s /\ 1 <= len s <= 500
  | _ => TodoUpdate.title u = None
  end
  /\ match in_description b with
     | Given d => TodoUpdate.description u = Some d
                  /\ len d <= 2000
     | _ => TodoUpdate.description u = None
     end
  /\ TodoUpdate.completed u
     = match in_completed b with
       | Given x => Some x
       | _ => None
       end.
Proof.
  rewrite TodoUpdate_validate_inr, TodoUpdate_title_inr.
  rewrite (description_inr TodoUpdate.description_field None) by reflexivity.
  assert (Hc : validate_optional_bool TodoUpdate.completed_field "completed"
                 (in_completed b) = inr (TodoUpdate.completed u)
               <-> TodoUpdate.completed u
                   = match in_completed b with
                     | Given x => Some x
                     | _ => None
                     end).
  { destruct (in_completed b) as [| |x]; simpl;
      cbv [use_default default TodoUpdate.completed_field];
      split; congruence. }
  rewrite Hc.
  destruct (in_description b); reflexivity.
Qed.






(** X12. A create body without a title is rejected with the error
    [missing] at title, one whose title is [null] with [string_type], and
    one whose completed flag is [null] with [bool_type]. *)
Theorem X12_create_requires_title_and_a_boolean_flag (b : json_body) :
  (in_title b = Missing ->
   exists errs, TodoCreate.validate b = inl errs
                /\ Err "title" missing ∈ errs)
  /\ (in_title b = Null ->
      exists errs, TodoCreate.validate b = inl errs
                   /\ Err "title" string_type ∈ errs)
  /\ (in_completed b = Null ->
      exists errs, TodoCreate.validate b = inl errs
                   /\ Err "completed" bool_type ∈ errs).
Proof.
  unfold TodoCreate.validate. split; [|split]; intros H;
    apply TodoBase_validate_inl; rewrite H; simpl.
  - apply elem_of_cons. now left.
  - apply elem_of_cons. now left.
  - rewrite !elem_of_app. right. right. apply elem_of_cons. now left.
Qed.

Lemma X12_witness :
  (exists errs, TodoCreate.validate update_completed_only = inl errs
                /\ Err "title" missing ∈ errs)
  /\ (exists errs, TodoCreate.validate (Body Null Missing Missing) = inl errs
                   /\ Err "title" string_type ∈ errs)
  /\ (exists errs,
        TodoCreate.validate (Body (Given "Buy milk") Missing Null) = inl errs
        /\ Err "completed" bool_type ∈ errs).
Proof.
  split; [|split].
  - apply (proj1 (X12_create_requires_title_and_a_boolean_flag
                    update_completed_only)). reflexivity.
  - apply (proj1 (proj2 (X12_create_requires_title_and_a_boolean_flag
                           (Body Null Missing Missing)))). reflexivity.
  - apply (proj2 (proj2 (X12_create_requires_title_and_a_boolean_flag
                           (Body (Given "Buy milk") Missing Null)))).
    reflexivity.
Defined.

(** X13. Every body that is accepted as a create request is also accepted
    as an update, which then carries the same title and the same completed
    flag if the body supplies one, and the same description unless the
    body leaves it out. *)
Theorem X13_accepted_create_body_is_an_accepted_update
        (b : json_body) (c : TodoCreate.t) :
  TodoCreate.validate b = inr c ->
  exists u : TodoUpdate.t,
    TodoUpdate.validate b = inr u
    /\ TodoUpdate.title u = Some (TodoBase.title c)
    /\ TodoUpdate.description u
       = match in_description b with
         | Missing => None
         | _ => TodoBase.description c
         end
    /\ TodoUpdate.completed u
       = match in_completed b with
         | Missing => None
         | _ => Some (TodoBase.completed c)
         end.
Proof.
  intros Hc. apply TodoCreate_accepted_iff in Hc.
  destruct Hc as ((Ht & Hlen) & Hd & Hco).
  exists (TodoUpdate.Make
            (Some (TodoBase.title c))
            (match in_description b with
             | Missing => None
             | _ => TodoBase.description c
             end)
            (match in_completed b with
             | Missing => None
             | _ => Some (TodoBase.completed c)
             end)).
  split; [|simpl; auto].
  apply TodoUpdate_accepted_iff. simpl. rewrite Ht.
  split; [auto|]. split.
  - destruct (in_description b) as [| |d]; [reflexivity | exact Hd |].
    destruct Hd as [-> ?]. auto.
  - destruct (in_completed b) as [| |x]; [reflexivity | contradiction |].
    now rewrite Hco.
Qed.

Lemma X13_witness :
  exists u : TodoUpdate.t,
    TodoUpdate.validate (create_body_with "Buy milk" "2 litres") = inr u
    /\ TodoUpdate.title u = Some "Buy milk"
    /\ TodoUpdate.description u = Some "2 litres"
    /\ TodoUpdate.completed u = None.
Proof.
  apply (X13_accepted_create_body_is_an_accepted_update
           (create_body_with "Buy milk" "2 litres")
           (TodoBase.Make "Buy milk" (Some "2 litres") false)).
  reflexivity.
Defined.

(** X14. The body of the complete endpoint is accepted, with the flag as
    given, when it carries a boolean. A flag that is absent is rejected
    with [missing] and one that is [null] with [bool_type], although an
    update accepts both and leaves the flag unset. *)
Theorem X14_complete_body_needs_a_flag (i : input bool) :
  (forall x : bool,
     i = Given x -> TodoComplete.validate i = inr (TodoComplete.Make x))
  /\ (i = Missing ->
      TodoComplete.validate i = inl [Err "completed" missing]
      /\ TodoUpdate.validate (Body Missing Missing i)
         = inr (TodoUpdate.Make None None None))
  /\ (i = Null ->
      TodoComplete.validate i = inl [Err "completed" bool_type]
      /\ TodoUpdate.validate (Body Missing Missing i)
         = inr (TodoUpdate.Make None None None)).
Proof.
  split; [|split].
  - intros x ->. reflexivity.
  - intros ->. split; reflexivity.
  - intros ->. split; reflexivity.
Qed.

Lemma X14_witness :
  TodoComplete.validate (Given true) = inr (TodoComplete.Make true)
  /\ TodoComplete.validate (@Missing bool) = inl [Err "completed" missing]
  /\ TodoComplete.validate (@Null bool) = inl [Err "completed" bool_type].
Proof.
  split; [|split].
  - apply (proj1 (X14_complete_body_needs_a_flag (Given true)) true).
    reflexivity.
  - apply (proj1 (proj2 (X14_complete_body_needs_a_flag Missing))).
    reflexivity.
  - apply (proj2 (proj2 (X14_complete_body_needs_a_flag Null))).
    reflexivity.
Defined.

(** *** Response models *)

(** The bounds that [TodoResponse] inherits from [TodoBase]. *)
Lemma TodoResponse_validate_to_row (x : TodoResponse.t) :
  TodoResponse.validate (TodoResponse.to_row x)
  = if (len (TodoResponse.title x) <? 1)%nat
    then inl (RErr [Key "title"] (field_error string_too_short)
              :: match TodoResponse.description x with
                 | Some d =>
                     if (2000 <? len d)%nat
                     then [RErr [Key "description"]
                                (field_error string_too_long)]
                     else []
                 | None => []
                 end)
    else if (500 <? len (TodoResponse.title x))%nat
    then inl (RErr [Key "title"] (field_error string_too_long)
              :: match TodoResponse.description x with
                 | Some d =>
                     if (2000 <? len d)%nat
                     then [RErr [Key "description"]
                                (field_error string_too_long)]
                     else []
                 | None => []
                 end)
    else match TodoResponse.description x with
         | Some d =>
             if (2000 <? len d)%nat
             then inl [RErr [Key "description"]
                            (field_error string_too_long)]
             else inr x
         | None => inr x
         end.
Proof.
  destruct x as [ti de co i ca ua].
  unfold TodoResponse.validate, TodoResponse.to_row.
  cbn [row_title row_description row_completed row_id row_created_at
       row_updated_at TodoResponse.title TodoResponse.description
       TodoResponse.completed TodoResponse.id TodoResponse.created_at
       TodoResponse.updated_at].
  rewrite TodoBase_title_given.
  assert (Hd : validate_optional_str TodoBase.description_field "description"
                 (match de with Some d => Given d | None => Null end)
               = match de with
                 | Some d =>
                     if (2000 <? len d)%nat
                     then inl [Err "description" string_too_long]
                     else inr (Some d)
                 | None => inr None
                 end).
  { destruct de as [d|]; [|reflexivity].
    now apply description_given. }
  rewrite Hd.
  destruct (len ti <? 1)%nat;
    [|destruct (500 <? len ti)%nat];
    (destruct de as [d|]; [destruct (2000 <? len d)%nat|]);
    reflexivity.
Qed.

Lemma TodoResponse_round_trip (x : TodoResponse.t) :
  (TodoResponse.validate (TodoResponse.to_row x) = inr x
   <-> TodoResponse.in_bounds x)
  /\ (forall y, TodoResponse.validate (TodoResponse.to_row x) = inr y ->
                y = x).
Proof.
  rewrite TodoResponse_validate_to_row. unfold TodoResponse.in_bounds.
  destruct (Nat.ltb_spec (len (TodoResponse.title x)) 1).
  { split; [split; [discriminate | lia] | discriminate]. }
  destruct (Nat.ltb_spec 500 (len (TodoResponse.title x))).
  { split; [split; [discriminate | lia] | discriminate]. }
  destruct (TodoResponse.description x) as [d|].
  - destruct (Nat.ltb_spec 2000 (len d)).
    + split; [split; [discriminate|] | discriminate].
      intros [_ Hd]. specialize (Hd d eq_refl). lia.
    + split; [split; [intros _|reflexivity] | congruence].
      split; [lia|]. intros d' [= <-]. lia.
  - split; [split; [intros _|reflexivity] | congruence].
    split; [lia | discriminate].
Qed.

Lemma TodoCreate_in_bounds (b : json_body) (c : TodoCreate.t)
      (i : Z) (ca ua : string) :
  TodoCreate.validate b = inr c ->
  TodoResponse.in_bounds
    (TodoResponse.Make (TodoBase.title c) (TodoBase.description c)
                       (TodoBase.completed c) i ca ua).
Proof.
  intros Hc. apply TodoCreate_accepted_iff in Hc as ((_ & Hlen) & Hd & _).
  split; [exact Hlen|]. simpl. intros d Hdesc. rewrite Hdesc in Hd.
  destruct (in_description b) as [| |d'].
  - injection Hd as ->. simpl. lia.
  - discriminate.
  - destruct Hd as [[= ->] ?]. assumption.
Qed.

(** X15. A response passed back through [TodoResponse] comes out
    unchanged, and it is accepted exactly when its title has length 1 to
    500 and its description, if any, length at most 2000: the response
    model applies the bounds of [TodoBase] again. *)
Theorem X15_response_accepted_iff_in_bounds_and_unchanged
        (x : TodoResponse.t) :
  (TodoResponse.validate (TodoResponse.to_row x) = inr x
   <-> TodoResponse.in_bounds x)
  /\ (forall y, TodoResponse.validate (TodoResponse.to_row x) = inr y ->
                y = x).
Proof. apply TodoResponse_round_trip. Qed.

Lemma X15_witness :
  TodoResponse.validate (TodoResponse.to_row milk) = inr milk
  /\ ~ TodoResponse.in_bounds long_title.
Proof.
  split.
  - apply (proj2 (proj1 (X15_response_accepted_iff_in_bounds_and_unchanged
                           milk))).
    split; [vm_compute; lia | intros d [= <-]; vm_compute; lia].
  - intros Hb.
    apply (proj2 (proj1 (X15_response_accepted_iff_in_bounds_and_unchanged
                           long_title))) in Hb.
    vm_compute in Hb. discriminate Hb.
Defined.

(** X16. Whatever [TodoCreate] accepts can be returned: the fields of an
    accepted create request, together with any id and timestamps, form a
    response that [TodoResponse] accepts as it is. *)
Theorem X16_accepted_create_can_be_returned
        (b : json_body) (c : TodoCreate.t) (i : Z) (ca ua : string) :
  TodoCreate.validate b = inr c ->
  TodoResponse.validate
    (TodoResponse.to_row
       (TodoResponse.Make (TodoBase.title c) (TodoBase.description c)
                          (TodoBase.completed c) i ca ua))
  = inr (TodoResponse.Make (TodoBase.title c) (TodoBase.description c)
                           (TodoBase.completed c) i ca ua).
Proof.
  intros Hc. apply TodoResponse_round_trip.
  now apply TodoCreate_in_bounds with (b := b).
Qed.

Lemma X16_witness :
  TodoResponse.validate (TodoResponse.to_row milk) = inr milk.
Proof.
  apply (X16_accepted_create_can_be_returned
           (create_body_with "Buy milk" "2 litres")
           (TodoBase.Make "Buy milk" (Some "2 litres") false)
           1 "2024-05-01 10:00:00" "2024-05-01 10:00:00").
  reflexivity.
Defined.

(** The items of a list of responses. *)
Lemma validate_items_to_row (xs : list TodoResponse.t) (n : nat) :
  TodoListResponse.validate_items n (TodoResponse.to_row <$> xs) = inr xs
  <-> Forall TodoResponse.in_bounds xs.
Proof.
  revert n. induction xs as [|x xs IH]; intros n.
  - simpl. split; [constructor | reflexivity].
  - rewrite fmap_cons. cbn [TodoListResponse.validate_items].
    destruct (TodoResponse_round_trip x) as [Hx Hsame].
    specialize (IH (S n)).
    destruct (TodoResponse.validate (TodoResponse.to_row x)) as [ex|y] eqn:Hv;
      destruct (TodoListResponse.validate_items (S n)
                  (TodoResponse.to_row <$> xs)) as [exs|ys] eqn:Hvs;
      simpl.
    + split; [discriminate|]. intros Hall. inversion Hall; subst.
      apply Hx in H1. discriminate.
    + split; [discriminate|]. intros Hall. inversion Hall; subst.
      apply Hx in H1. discriminate.
    + split; [discriminate|]. intros Hall. inversion Hall; subst.
      apply IH in H2. discriminate.
    + split.
      * intros [= -> ->]. constructor; [now apply Hx | now apply IH].
      * intros Hall. inversion Hall; subst.
        apply Hx in H1. apply IH in H2. congruence.
Qed.

(** X17. A list response is accepted exactly when each of its items is
    within the bounds of [TodoResponse]; [total] is taken as given and is
    not compared with the number of items. *)
Theorem X17_list_response_accepted_iff_items_in_bounds
        (xs : list TodoResponse.t) (n : Z) :
  TodoListResponse.validate
    (ListIn (Given (TodoResponse.to_row <$> xs)) (Given n))
  = inr (TodoListResponse.Make xs n)
  <-> Forall TodoResponse.in_bounds xs.
Proof.
  unfold TodoListResponse.validate.
  cbn [in_todos in_total TodoListResponse.validate_todos validate_int].
  rewrite <- (validate_items_to_row xs 0).
  destruct (TodoListResponse.validate_items 0 (TodoResponse.to_row <$> xs))
    as [errs|ys]; simpl; split; congruence.
Qed.

Lemma X17_witness :
  TodoListResponse.validate
    (ListIn (Given (TodoResponse.to_row <$> [milk])) (Given 7%Z))
  = inr (TodoListResponse.Make [milk] 7).
Proof.
  apply (proj2 (X17_list_response_accepted_iff_items_in_bounds [milk] 7)).
  constructor; [|constructor].
  split; [vm_compute; lia | intros d [= <-]; vm_compute; lia].
Defined.

Lemma validate_items_reports (rows : list todo_row) :
  forall (n k : nat) (r : todo_row) (errs : list response_error)
         (e : response_error),
    rows !! k = Some r ->
    TodoResponse.validate r = inl errs ->
    e ∈ errs ->
    under [Key "todos"; Index (n + k)] e
      ∈ response_errors (TodoListResponse.validate_items n rows).
Proof.
  induction rows as [|r0 rest IH]; intros n k r errs e Hk Hv He.
  - discriminate Hk.
  - cbn [TodoListResponse.validate_items]. destruct k as [|k].
    + injection Hk as ->. rewrite Hv, Nat.add_0_r.
      destruct (TodoListResponse.validate_items (S n) rest); simpl;
        apply elem_of_app; left; now apply list_elem_of_fmap_2.
    + specialize (IH (S n) k r errs e Hk Hv He).
      replace (n + S k) with (S n + k) by lia.
      destruct (TodoListResponse.validate_items (S n) rest) as [es|ys];
        [|now apply elem_of_nil in IH].
      destruct (TodoResponse.validate r0); simpl;
        [apply elem_of_app; now right | exact IH].
Qed.

(** X18. When an item of a list response is rejected, the list response
    is rejected too, and every error of that item is reported below
    [todos] and the index of the item. *)
Theorem X18_list_response_reports_item_errors_under_their_index
        (rows : list todo_row) (t : input Z) (k : nat) (r : todo_row)
        (errs : list response_error) (e : response_error) :
  rows !! k = Some r ->
  TodoResponse.validate r = inl errs ->
  e ∈ errs ->
  exists all : list response_error,
    TodoListResponse.validate (ListIn (Given rows) t) = inl all
    /\ RErr (Key "todos" :: Index k :: rloc e) (rtype e) ∈ all.
Proof.
  intros Hk Hv He.
  pose proof (validate_items_reports rows 0 k r errs e Hk Hv He) as Hin.
  simpl in Hin. unfold TodoListResponse.validate.
  cbn [in_todos in_total TodoListResponse.validate_todos].
  destruct (TodoListResponse.validate_items 0 rows) as [es|ys];
    [|now apply elem_of_nil in Hin].
  simpl in Hin.
  destruct (validate_int TodoListResponse.total_field "total" t);
    eexists; (split; [reflexivity|]); apply elem_of_app; now left.
Qed.

Lemma X18_witness :
  exists all : list response_error,
    TodoListResponse.validate
      (ListIn (Given [TodoResponse.to_row milk; untitled_row]) (Given 2%Z))
    = inl all
    /\ RErr [Key "todos"; Index 1; Key "title"]
            (field_error string_too_short) ∈ all.
Proof.
  apply (X18_list_response_reports_item_errors_under_their_index
           [TodoResponse.to_row milk; untitled_row] (Given 2%Z) 1
           untitled_row
           [RErr [Key "title"] (field_error string_too_short)]
           (RErr [Key "title"] (field_error string_too_short)));
    [reflexivity | reflexivity | apply elem_of_cons; now left].
Defined.

End SchemasMore.

(* ===================================================================== *)
(** ** Properties of main.py *)
(* ===================================================================== *)

Module MainSpec.
Import Database Main Samples.
Local Open Scope list_scope.

(** *** Splitting at a separator *)

Lemma split_not_nil (sep : ascii) (s : string) : split sep s <> [].
Proof.
  destruct s as [|ch rest]; simpl; [discriminate|].
  destruct (Ascii.eqb ch sep); [discriminate|].
  destruct (split sep rest); discriminate.
Qed.

Lemma join_cons (sep : ascii) (piece : string) (rest : list string) :
  rest <> [] ->
  join sep (piece :: rest) = (piece ++ String sep (join sep rest))%string.
Proof. destruct rest; [congruence | reflexivity]. Qed.

Lemma join_split (sep : ascii) (s : string) : join sep (split sep s) = s.
Proof.
  induction s as [|ch rest IH]; [reflexivity|].
  cbn [split]. destruct (Ascii.eqb_spec ch sep) as [->|Hne].
  - rewrite join_cons by apply split_not_nil. now rewrite IH.
  - pose proof (split_not_nil sep rest) as Hnil.
    destruct (split sep rest) as [|piece pieces]; [congruence|].
    destruct pieces as [|piece' pieces].
    + simpl in *. now rewrite IH.
    + rewrite join_cons by discriminate.
      rewrite join_cons in IH by discriminate.
      rewrite <- IH. reflexivity.
Qed.

Lemma split_pieces (sep : ascii) (s : string) :
  List.length (split sep s) = S (occurrences sep s)
  /\ Forall (fun piece => occurs sep piece = false) (split sep s).
Proof.
  induction s as [|ch rest [IHlen IHfree]]; simpl.
  - split; [reflexivity | repeat constructor].
  - destruct (Ascii.eqb ch sep) eqn:Heq; simpl.
    + split; [now rewrite IHlen | constructor; [reflexivity | exact IHfree]].
    + destruct (split sep rest) as [|piece pieces]; [discriminate IHlen|].
      split; [exact IHlen|].
      inversion IHfree; subst. constructor; [|assumption].
      simpl. now rewrite Heq.
Qed.

Lemma split_free (sep : ascii) (piece : string) :
  occurs sep piece = false -> split sep piece = [piece].
Proof.
  induction piece as [|ch rest IH]; [reflexivity|]. simpl.
  destruct (Ascii.eqb ch sep); [discriminate|]. simpl.
  intros Hfree. now rewrite IH.
Qed.

Lemma split_app_sep (sep : ascii) (piece rest : string) :
  occurs sep piece = false ->
  split sep (piece ++ String sep rest)%string = piece :: split sep rest.
Proof.
  induction piece as [|ch piece IH]; simpl.
  - intros _. now rewrite Ascii.eqb_refl.
  - destruct (Ascii.eqb ch sep); [discriminate|]. simpl.
    intros Hfree. now rewrite IH.
Qed.

Lemma split_join (sep : ascii) (pieces : list string) :
  pieces <> [] ->
  Forall (fun piece => occurs sep piece = false) pieces ->
  split sep (join sep pieces) = pieces.
Proof.
  induction pieces as [|piece rest IH]; [congruence|].
  intros _ Hfree. inversion Hfree as [|? ? Hpiece Hrest]; subst.
  destruct rest as [|piece' rest].
  - simpl. now apply split_free.
  - rewrite join_cons by discriminate.
    rewrite split_app_sep by assumption.
    rewrite IH; [reflexivity | discriminate | assumption].
Qed.

(** *** The CORS configuration *)

Lemma unless_star_id (x : list string) : unless_star x = x.
Proof. unfold unless_star. case_bool_decide as H; [reflexivity|].
  destruct (decide (x = ["*"])) as [->|Hne]; [reflexivity | contradiction].
Qed.

Lemma split_star (v : string) : split "," v = ["*"] <-> v = "*".
Proof.
  split; [|intros ->; reflexivity].
  intros H. rewrite <- (join_split "," v), H. reflexivity.
Qed.

Lemma cors_middleware_lists (os : os_state) :
  allow_lists (cors_middleware os)
  = (fun name =>
       (name, split "," (os_getenv_default (load_dotenv os) name "*")))
      <$> ["ALLOWED_ORIGINS"; "ALLOWED_METHODS"; "ALLOWED_HEADERS"].
Proof.
  unfold cors_middleware, allow_lists. simpl.
  now rewrite !unless_star_id.
Qed.

(** X19. Nothing of a variable is lost on the way to the middleware: each
    allow list, joined with commas, is the value of its variable (or the
    default [*]); no entry is trimmed, merged or dropped, empty entries
    included. *)
Theorem X19_allow_lists_joined_give_back_the_variables (os : os_state) :
  Forall (fun '(name, entries) =>
            join "," entries = os_getenv_default (load_dotenv os) name "*")
         (allow_lists (cors_middleware os)).
Proof.
  rewrite cors_middleware_lists. simpl.
  repeat (apply Forall_cons_2; [apply join_split|]).
  apply Forall_nil_2.
Qed.

(** X20. Each allow list has one entry more than its variable has commas,
    so none is ever empty, and no entry has a comma in it. *)
Theorem X20_allow_lists_have_one_entry_per_comma_plus_one (os : os_state) :
  Forall (fun '(name, entries) =>
            List.length entries
            = S (occurrences "," (os_getenv_default (load_dotenv os) name "*"))
            /\ entries <> []
            /\ Forall (fun entry => occurs "," entry = false) entries)
         (allow_lists (cors_middleware os)).
Proof.
  rewrite cors_middleware_lists. simpl.
  repeat (apply Forall_cons_2;
          [split; [apply split_pieces
                  | split; [apply split_not_nil | apply split_pieces]]|]).
  apply Forall_nil_2.
Qed.

(** X21. A variable written as entries joined by commas configures
    exactly those entries, as long as there is at least one and none has
    a comma in it. *)
Theorem X21_joined_entries_configure_those_entries
        (os : os_state) (entries : list string) :
  os_getenv (load_dotenv os) "ALLOWED_ORIGINS" = Some (join "," entries) ->
  entries <> [] ->
  Forall (fun entry => occurs "," entry = false) entries ->
  allow_origins (cors_middleware os) = entries.
Proof.
  intros Hv Hne Hfree. unfold cors_middleware. cbn [allow_origins].
  rewrite unless_star_id. unfold os_getenv_default.
  unfold os_getenv in Hv. rewrite Hv.
  now apply split_join.
Qed.

Lemma X21_witness :
  allow_origins (cors_middleware os_two_origins)
  = ["http://localhost:3000"; "https://todo.example"].
Proof.
  apply X21_joined_entries_configure_those_entries;
    [reflexivity | discriminate | repeat constructor].
Defined.

(** X22. Each allow list handed to the middleware is the split at the
    commas of its variable, or of the default [*] when the variable is
    not set: the conditional around it changes nothing. Credentials are
    always allowed. *)
Theorem X22_cors_lists_are_the_split_variables (os : os_state) :
  cors_middleware os
  = Cors (split "," (os_getenv_default (load_dotenv os) "ALLOWED_ORIGINS" "*"))
         true
         (split "," (os_getenv_default (load_dotenv os) "ALLOWED_METHODS" "*"))
         (split "," (os_getenv_default (load_dotenv os) "ALLOWED_HEADERS" "*")).
Proof. unfold cors_middleware. now rewrite !unless_star_id. Qed.

(** X23. All origins are allowed exactly when [ALLOWED_ORIGINS] is not
    set or is the single character [*]. A variable set to the empty
    string does not fall back to the default: it allows one origin, the
    empty string. *)
Theorem X23_all_origins_allowed_iff_unset_or_star (os : os_state) :
  (allow_origins (cors_middleware os) = ["*"]
   <-> os_getenv (load_dotenv os) "ALLOWED_ORIGINS" = None
       \/ os_getenv (load_dotenv os) "ALLOWED_ORIGINS" = Some "*")
  /\ (os_getenv (load_dotenv os) "ALLOWED_ORIGINS" = Some EmptyString ->
      allow_origins (cors_middleware os) = [EmptyString]).
Proof.
  unfold cors_middleware. cbn [allow_origins]. rewrite unless_star_id.
  unfold os_getenv_default, os_getenv.
  destruct (environ (load_dotenv os) !! "ALLOWED_ORIGINS") as [v|]; split.
  - rewrite split_star. split; [intros ->; now right|].
    intros [H|H]; congruence.
  - intros [= ->]. reflexivity.
  - split; [now left | reflexivity].
  - discriminate.
Qed.

Lemma X23_witness :
  allow_origins (cors_middleware os_unset) = ["*"]
  /\ allow_origins (cors_middleware os_empty_origins) = [EmptyString].
Proof.
  split.
  - apply (proj2 (proj1 (X23_all_origins_allowed_iff_unset_or_star os_unset))).
    left. reflexivity.
  - apply (proj2 (X23_all_origins_allowed_iff_unset_or_star os_empty_origins)).
    reflexivity.
Defined.

End MainSpec.
